(** * Study Material Generator API: a shallow embedding of [main.py]

    The service is a FastAPI application with four routes.  Two of them
    delegate to an external text-generation capability ([crew.kickoff()]
    of CrewAI, backed by a Gemini model): [/summarize] makes one call,
    [/generate_study_material] makes three calls, each later instruction
    being built from the text returned by the earlier one.

    Python strings are modelled by [string], holding the UTF-8 encoding of
    the text; a Python [dict] with string keys by [gmap string _]; the
    generation capability by an oracle whose reply may depend on every call
    made before; a handler by a tree of calls ([prog]) that an interpreter
    runs against the oracle, recording the calls in order. *)

From Stdlib Require Import ZArith QArith.
From stdpp Require Import base option list strings pretty gmap.

Open Scope Z_scope.
Open Scope string_scope.
Open Scope list_scope.

(** ** Strings *)

(** The escape [\n] of a Python literal. *)
Definition nl : string := String (Ascii.ascii_of_nat 10) "".

(** [str(n)] and the f-string field [{n}] for a Python [int]. *)
Definition str_int (n : Z) : string := pretty n.

(** [starts_with p s]: the Python [s.startswith(p)]. *)
Fixpoint starts_with (p s : string) : bool :=
  match p, s with
  | EmptyString, _ => true
  | String _ _, EmptyString => false
  | String a p', String b s' => if Ascii.eqb a b then starts_with p' s' else false
  end.

(** [occurs needle hay]: the Python [needle in hay]. *)
Fixpoint occurs (needle hay : string) : bool :=
  starts_with needle hay ||
  match hay with
  | EmptyString => false
  | String _ hay' => occurs needle hay'
  end.

(** ** Exceptions *)

(** A raised Python exception: its class and its message. *)
Inductive exception : Type :=
  Exception (cls : string) (msg : string).

Definition ValueError (msg : string) : exception := Exception "ValueError" msg.

(** ** The CrewAI objects the handlers build *)

(** [LLM(model=..., api_key=..., temperature=...)]. *)
Record LLM : Type := mkLLM {
  model : string;
  api_key : string;
  temperature : Q;
}.

(** [Agent(role=..., goal=..., backstory=..., llm=..., verbose=...)]. *)
Record Agent : Type := mkAgent {
  role : string;
  goal : string;
  backstory : string;
  llm : LLM;
  agent_verbose : bool;
}.

(** [Task(description=..., expected_output=..., agent=...)]. *)
Record Task : Type := mkTask {
  description : string;
  expected_output : string;
  agent : Agent;
}.

(** [Crew(agents=[...], tasks=[...], verbose=...)]. *)
Record Crew : Type := mkCrew {
  agents : list Agent;
  tasks : list Task;
  crew_verbose : bool;
}.

(** ** Handlers as trees of generation calls *)

Section Programs.

(** What [crew.kickoff()] returns; the handlers only ever apply [str] to it. *)
Context {CrewOutput : Type}.

(** A handler body: it returns, or it runs [c.kickoff()] and continues
    with the result.  There is no constructor for catching an exception:
    [main.py] has no [try]. *)
Inductive prog (A : Type) : Type :=
| Ret (a : A)
| Kickoff (c : Crew) (k : CrewOutput -> prog A).

Global Arguments Ret {A} a.
Global Arguments Kickoff {A} c k.

Fixpoint prog_bind {A B : Type} (p : prog A) (f : A -> prog B) : prog B :=
  match p with
  | Ret a => f a
  | Kickoff c k => Kickoff c (fun r => prog_bind (k r) f)
  end.

(** [kickoff c] is the statement [result = c.kickoff()]. *)
Definition kickoff (c : Crew) : prog CrewOutput := Kickoff c Ret.

(** The generation capability: given the calls made so far and the crew
    submitted now, it raises or it returns a result. *)
Definition capability : Type := list Crew -> Crew -> exception + CrewOutput.

(** [run gen p hist] runs [p] after the calls [hist]; the result is the
    returned value or the exception that escaped, with the calls made,
    oldest first.  A call that raises ends the run: nothing catches it. *)
Fixpoint run {A : Type} (gen : capability) (p : prog A) (hist : list Crew)
  : (exception + A) * list Crew :=
  match p with
  | Ret a => (inr a, hist)
  | Kickoff c k =>
      match gen hist c with
      | inl e => (inl e, hist ++ [c])
      | inr r => run gen (k r) (hist ++ [c])
      end
  end.

End Programs.

Arguments prog : clear implicits.
Arguments capability : clear implicits.

(** The statements of a handler are sequenced with stdpp's [x ← p; q]. *)
#[global] Instance prog_ret {R : Type} : MRet (prog R) := fun A a => Ret a.
#[global] Instance prog_mbind {R : Type} : MBind (prog R) :=
  fun A B f p => prog_bind p f.

(** ** Module level of [main.py]: configuration read at import time *)

(** [load_dotenv()]: the variables of the [.env] file are added to the
    process environment; a variable already set keeps its value. *)
Definition load_dotenv (dotenv environ : gmap string string) : gmap string string :=
  environ ∪ dotenv.

(** [os.getenv(name)]: [None] when the variable is not set. *)
Definition getenv (environ : gmap string string) (name : string) : option string :=
  environ !! name.

(** The module globals the handlers read once the import has succeeded. *)
Record Globals : Type := mkGlobals {
  GEMINI_API_KEY : string;
  gemini_llm : LLM;
}.

(** Lines 9 to 22: the import of [main.py] raises when the key is not set,
    otherwise it builds the LLM configuration shared by every agent. *)
Definition startup (dotenv environ : gmap string string) : exception + Globals :=
  let environ := load_dotenv dotenv environ in
  match getenv environ "GEMINI_API_KEY" with
  | None => inl (ValueError "GEMINI_API_KEY is not set. Please add it to your .env file.")
  | Some key =>
      inr {| GEMINI_API_KEY := key;
             gemini_llm := {| model := "gemini/gemini-2.5-pro";
                              api_key := key;
                              temperature := 3 # 10 |} |}
  end.

(** ** Request models *)

(** [class SummarizeRequest(BaseModel)]. *)
Record SummarizeRequest : Type := mkSummarizeRequest {
  sr_text : string;
}.

(** [class StudyMaterialRequest(BaseModel)]. *)
Record StudyMaterialRequest : Type := mkStudyMaterialRequest {
  text : string;
  num_mcqs : Z;
}.

(** The default of the field [num_mcqs: int = 5]. *)
Definition num_mcqs_default : Z := 5.

(** ** Route handlers *)

(** [GET /]. *)
Definition read_root : gmap string string :=
  {[ "message" := "Study Material Generator API is running 🚀" ]}.

(** [GET /health]. *)
Definition health_check : gmap string string :=
  {[ "status" := "ok" ]}.

Section Handlers.

Context {CrewOutput : Type}.

(** Python's [str(result)] on what [kickoff] returned. *)
Variable str : CrewOutput -> string.

(** The module global [gemini_llm]. *)
Variable the_llm : LLM.

(** *** [POST /summarize] *)

Definition summarizer_agent : Agent :=
  {| role := "Subject Teacher";
     goal := "Create short, exam-focused summaries of study material.";
     backstory :=
       "You are a very good college teacher. " +:+
       "You read the given content and write clear, simple, point-wise notes " +:+
       "that help students revise before exams.";
     llm := the_llm;
     agent_verbose := true |}.

Definition summarize_task (user_text : string) : Task :=
  {| description :=
       "Read the following study material and create a short, clear, " +:+
       "exam-focused summary in simple language. Use bullet points where possible." +:+ nl +:+ nl +:+
       "CONTENT:" +:+ nl +:+ user_text;
     expected_output :=
       "A concise summary of the content, with bullet points, " +:+
       "covering all important concepts for exam preparation.";
     agent := summarizer_agent |}.

Definition summarize_text (request : SummarizeRequest) : prog CrewOutput (gmap string string) :=
  let user_text := sr_text request in
  let crew := {| agents := [summarizer_agent];
                 tasks := [summarize_task user_text];
                 crew_verbose := true |} in
  result ← kickoff crew;
  mret {[ "summary" := str result ]}.

(** *** [POST /generate_study_material] *)

Definition topic_analyzer : Agent :=
  {| role := "Topic Analyzer";
     goal := "Identify the most important topics and subtopics from the given study material.";
     backstory :=
       "You are an expert at reading long chapters and extracting only the most " +:+
       "important headings and subheadings that students should study for exams.";
     llm := the_llm;
     agent_verbose := true |}.

Definition notes_maker : Agent :=
  {| role := "Notes Maker";
     goal := "Write short, exam-focused notes in simple language.";
     backstory :=
       "You are a friendly college teacher. You explain concepts in very simple terms " +:+
       "and create bullet-point notes that students can revise quickly before exams.";
     llm := the_llm;
     agent_verbose := true |}.

Definition mcq_maker : Agent :=
  {| role := "MCQ Creator";
     goal := "Create clear MCQs based on the notes and topics, with 4 options and correct answer.";
     backstory :=
       "You are an experienced question paper setter. You create fair and clear MCQs " +:+
       "that directly test understanding of the notes and topics.";
     llm := the_llm;
     agent_verbose := true |}.

Definition topic_task (content : string) : Task :=
  {| description :=
       "Read the following study material and extract the MOST IMPORTANT topics and subtopics " +:+
       "for exam preparation and give full length description or points." +:+ nl +:+ nl +:+
       "CONTENT:" +:+ nl +:+ content +:+ nl +:+ nl +:+
       "OUTPUT FORMAT (VERY IMPORTANT):" +:+ nl +:+
       "- Do NOT use any Markdown formatting (no *, no #, no **, no ```)." +:+ nl +:+
       "- Use only plain text." +:+ nl +:+
       "- Write in this style:" +:+ nl +:+
       "  Main Topic 1:" +:+ nl +:+
       "    - Subtopic 1" +:+ nl +:+
       "    - Subtopic 2" +:+ nl +:+
       "  Main Topic 2:" +:+ nl +:+
       "    - Subtopic 1" +:+ nl +:+
       "    - Subtopic 2" +:+ nl;
     expected_output :=
       "A bullet list of main topics and their subtopics, focused only on what is actually important for exams.";
     agent := topic_analyzer |}.

Definition notes_task (topics_text content : string) : Task :=
  {| description :=
       "You are creating exam-focused notes for a B.Tech CSE student." +:+ nl +:+
       "Use the topics and subtopics listed below, plus the original content, " +:+
       "to write SHORT, SCORING NOTES for university exams." +:+ nl +:+ nl +:+
       "TOPICS AND SUBTOPICS:" +:+ nl +:+
       topics_text +:+ nl +:+ nl +:+
       "ORIGINAL CONTENT:" +:+ nl +:+
       content +:+ nl +:+ nl +:+
       "VERY IMPORTANT RULES:" +:+ nl +:+
       "- DO NOT use Markdown (no *, no #, no **, no ```)." +:+ nl +:+
       "- Use ONLY plain text." +:+ nl +:+
       "- Write in clean headings and bullet points." +:+ nl +:+
       "- Target answers that can directly be written in 6–8 mark questions." +:+ nl +:+
       "- For each main topic, include:" +:+ nl +:+
       "  1) Definition (1–2 lines)" +:+ nl +:+
       "  2) Important points / properties (point-wise)" +:+ nl +:+
       "  3) Important operations / algorithms (in short)" +:+ nl +:+
       "  4) Advantages / disadvantages (if applicable)" +:+ nl +:+
       "  5) Applications / examples (if useful)" +:+ nl +:+
       "- Avoid long stories or over-explanation." +:+ nl +:+
       "- Keep language simple, as if explaining to an average student before exam." +:+ nl +:+ nl +:+
       "OUTPUT FORMAT (example style, but adapt to content):" +:+ nl +:+
       "Array:" +:+ nl +:+
       "  - Definition: ..." +:+ nl +:+
       "  - Important points:" +:+ nl +:+
       "    - ..." +:+ nl +:+
       "    - ..." +:+ nl +:+
       "  - Operations and time complexity:" +:+ nl +:+
       "    - Traversal: ..." +:+ nl +:+
       "    - Insertion: ..." +:+ nl +:+
       "  - Advantages:" +:+ nl +:+
       "    - ..." +:+ nl +:+
       "  - Disadvantages:" +:+ nl +:+
       "    - ..." +:+ nl +:+
       "  - Applications:" +:+ nl +:+
       "    - ..." +:+ nl;
     expected_output :=
       "Plain text, point-wise exam notes (no markdown) for each main topic, " +:+
       "good enough to write 6–8 mark answers directly.";
     agent := notes_maker |}.

Definition mcq_task (notes_text : string) (num_mcqs : Z) : Task :=
  {| description :=
       "Based on the notes below, generate MCQs for exam preparation." +:+ nl +:+ nl +:+
       "NOTES:" +:+ nl +:+ notes_text +:+ nl +:+ nl +:+
       "Create around " +:+ str_int num_mcqs +:+ " MCQs." +:+ nl +:+ nl +:+
       "RULES:" +:+ nl +:+
       "- Each question must have 4 options: (a), (b), (c), (d)." +:+ nl +:+
       "- Clearly mention the correct answer after each question." +:+ nl +:+
       "- Questions should directly test understanding of the notes." +:+ nl +:+
       "- Avoid too tricky or confusing questions." +:+ nl +:+ nl +:+
       "OUTPUT FORMAT (very important):" +:+ nl +:+
       "Q1. <question text>" +:+ nl +:+
       "(a) option 1" +:+ nl +:+
       "(b) option 2" +:+ nl +:+
       "(c) option 3" +:+ nl +:+
       "(d) option 4" +:+ nl +:+
       "Answer: <option letter>" +:+ nl +:+ nl +:+
       "Q2. ... and so on.";
     expected_output :=
       "A list of about " +:+ str_int num_mcqs +:+
       " MCQs in the specified format, each with options and correct answer.";
     agent := mcq_maker |}.

(** The three crews, each with one agent and one task. *)
Definition topics_crew (content : string) : Crew :=
  {| agents := [topic_analyzer];
     tasks := [topic_task content];
     crew_verbose := true |}.

Definition notes_crew (topics_text content : string) : Crew :=
  {| agents := [notes_maker];
     tasks := [notes_task topics_text content];
     crew_verbose := true |}.

Definition mcq_crew (notes_text : string) (num_mcqs : Z) : Crew :=
  {| agents := [mcq_maker];
     tasks := [mcq_task notes_text num_mcqs];
     crew_verbose := true |}.

Definition generate_study_material (request : StudyMaterialRequest)
  : prog CrewOutput (gmap string string) :=
  let content := text request in
  let num_mcqs := num_mcqs request in
  topics_result ← kickoff (topics_crew content);
  let topics_text := str topics_result in
  notes_result ← kickoff (notes_crew topics_text content);
  let notes_text := str notes_result in
  mcq_result ← kickoff (mcq_crew notes_text num_mcqs);
  let mcq_text := str mcq_result in
  mret {[ "topics" := topics_text;
          "notes" := notes_text;
          "mcqs" := mcq_text ]}.

End Handlers.

(** ** Request bodies and their validation *)

(** A Python [float]: the number [m * 2 ^ e], an infinity or a NaN
    ([json.loads] reads the literals [Infinity], [-Infinity] and [NaN]). *)
Inductive pyfloat : Type :=
| Finite (m e : Z)
| Infinity (negative : bool)
| NaN.

(** A parsed JSON document, as [json.loads] hands it to the framework: a
    number written without fraction and exponent is an [int], any other
    number is a [float]. *)
#[warnings="-register-all"]
Inductive json : Type :=
| JNull
| JBool (b : bool)
| JInt (n : Z)
| JFloat (x : pyfloat)
| JString (s : string)
| JArray (items : list json)
| JObject (members : list (string * json)).

(** [member k ms]: the value of key [k] in the dict parsed from the object
    with members [ms]; when a key is repeated the last one stays. *)
Fixpoint member (k : string) (ms : list (string * json)) : option json :=
  match ms with
  | [] => None
  | (k', v) :: ms' =>
      match member k ms' with
      | Some w => Some w
      | None => if String.eqb k k' then Some v else None
      end
  end.

(** The validation of a value against the annotation [str]: a string is
    taken as it is, nothing else is a string. *)
Definition exact_str (v : json) : option string :=
  match v with JString s => Some s | _ => None end.

(** *** Validation against the annotation [int] *)

Definition is_digit (c : Ascii.ascii) : bool :=
  let n := Ascii.N_of_ascii c in ((48 <=? n) && (n <=? 57))%N.

Fixpoint has_digit (s : string) : bool :=
  match s with
  | EmptyString => false
  | String c s' => is_digit c || has_digit s'
  end.

Fixpoint is_ascii (s : string) : bool :=
  match s with
  | EmptyString => true
  | String c s' => (Ascii.N_of_ascii c <? 128)%N && is_ascii s'
  end.

(** The number written by a sequence of decimal digits, read from the
    left with [acc] the value of the digits already read. *)
Fixpoint digits_value (acc : N) (s : string) : option N :=
  match s with
  | EmptyString => Some acc
  | String c s' =>
      if is_digit c
      then digits_value (acc * 10 + (Ascii.N_of_ascii c - 48))%N s'
      else None
  end.

(** [int_of_str s]: the integer a plain decimal literal denotes, that is
    an optional minus sign followed by one digit or more; Python's
    [int(s)] on such an [s]. *)
Definition int_of_str (s : string) : option Z :=
  match s with
  | EmptyString => None
  | String c s' =>
      if String.eqb (String c "") "-"
      then match s' with
           | EmptyString => None
           | String _ _ => (fun n => - Z.of_N n) <$> digits_value 0 s'
           end
      else Z.of_N <$> digits_value 0 s
  end.

(** The integer a float is, when it has no fractional part. *)
Definition float_integer (x : pyfloat) : option Z :=
  match x with
  | Finite m e =>
      if (0 <=? e)%Z then Some (m * 2 ^ e)
      else if (m mod 2 ^ (- e) =? 0)%Z then Some (m / 2 ^ (- e)) else None
  | Infinity _ | NaN => None
  end.

(** The validation of a value against the annotation [int], done by the
    validation library in its default mode.  The library is not part of
    the repository; the cases written out are those in which its answer is
    settled: an [int] is taken as it is, a [bool] is 0 or 1, a float
    without fractional part inside the 64-bit range is that integer, a
    string that is a plain decimal literal of at most 18 characters is the
    integer it denotes; [None], an array, an object, a float with a
    fractional part, an infinity, a NaN and an ASCII string without any
    digit are rejected.  For every other value (a string with digits that
    is not such a literal, an integral float outside the 64-bit range) the
    library's answer is the parameter [undecided]. *)
Definition pydantic_int (undecided : json -> option Z) (v : json) : option Z :=
  match v with
  | JInt n => Some n
  | JBool b => Some (if b then 1 else 0)
  | JFloat x =>
      match x with
      | Finite _ _ =>
          match float_integer x with
          | Some n =>
              if ((- 2 ^ 63 <? n) && (n <? 2 ^ 63))%Z then Some n else undecided v
          | None => None
          end
      | Infinity _ | NaN => None
      end
  | JString s =>
      match int_of_str s with
      | Some n => if (String.length s <=? 18)%nat then Some n else undecided v
      | None => if has_digit s || negb (is_ascii s) then undecided v else None
      end
  | JNull | JArray _ | JObject _ => None
  end.


(** The instance used to evaluate the model: where the answer of the
    library is not settled above, the value is rejected. *)
Definition reject_undecided (v : json) : option Z := None.

Inductive method : Type := GET | POST.

(** An HTTP request; [body = None] when the body is not a JSON document. *)
Record HttpRequest : Type := mkHttpRequest {
  meth : method;
  path : string;
  body : option json;
}.

(** What the framework answers: the handler's return value, a rejection of
    the body by validation, the exception that escaped the handler, or no
    such route. *)
Inductive HttpResponse : Type :=
| OK (payload : gmap string string)
| ValidationError
| Unhandled (e : exception)
| NoRoute.

Section Application.

Context {CrewOutput : Type}.
Variable str : CrewOutput -> string.

(** The library's validation of one value against the annotations [str]
    and [int]: the validated value, or [None] when it is rejected. *)
Variable validate_str : json -> option string.
Variable validate_int : json -> option Z.

(** [text: str], required. *)
Definition SummarizeRequest_validate (b : json) : option SummarizeRequest :=
  match b with
  | JObject ms =>
      match member "text" ms with
      | None => None
      | Some v => t ← validate_str v; Some {| sr_text := t |}
      end
  | _ => None
  end.

(** [text: str], required; [num_mcqs: int = 5], with no constraint on
    the validated integer. *)
Definition StudyMaterialRequest_validate (b : json) : option StudyMaterialRequest :=
  match b with
  | JObject ms =>
      match member "text" ms with
      | None => None
      | Some v =>
          t ← validate_str v;
          n ← match member "num_mcqs" ms with
              | None => Some num_mcqs_default
              | Some w => validate_int w
              end;
          Some {| text := t; num_mcqs := n |}
      end
  | _ => None
  end.

(** What the application does with a request before any handler runs. *)
Inductive routed : Type :=
| Reject (r : HttpResponse)
| Handle (p : prog CrewOutput (gmap string string)).

(** A route with a body parameter: the handler runs on the validated
    model, and only when validation succeeds. *)
Definition with_body {Req : Type} (validate : json -> option Req)
    (handler : Req -> prog CrewOutput (gmap string string))
    (b : option json) : routed :=
  match b ≫= validate with
  | None => Reject ValidationError
  | Some request => Handle (handler request)
  end.

(** The routes registered by the decorators of [main.py]. *)
Definition app (g : Globals) (rq : HttpRequest) : routed :=
  match meth rq with
  | GET =>
      if String.eqb (path rq) "/" then Handle (mret read_root)
      else if String.eqb (path rq) "/health" then Handle (mret health_check)
      else Reject NoRoute
  | POST =>
      if String.eqb (path rq) "/summarize" then
        with_body SummarizeRequest_validate
          (summarize_text str (gemini_llm g)) (body rq)
      else if String.eqb (path rq) "/generate_study_material" then
        with_body StudyMaterialRequest_validate
          (generate_study_material str (gemini_llm g)) (body rq)
      else Reject NoRoute
  end.

(** One request served after the calls [hist]. *)
Definition serve (g : Globals) (gen : capability CrewOutput)
    (rq : HttpRequest) (hist : list Crew) : HttpResponse * list Crew :=
  match app g rq with
  | Reject r => (r, hist)
  | Handle p =>
      match run gen p hist with
      | (inr payload, hist') => (OK payload, hist')
      | (inl e, hist') => (Unhandled e, hist')
      end
  end.

(** Requests served one after the other. *)
Fixpoint serve_all (g : Globals) (gen : capability CrewOutput)
    (rqs : list HttpRequest) (hist : list Crew)
  : list HttpResponse * list Crew :=
  match rqs with
  | [] => ([], hist)
  | rq :: rqs' =>
      let '(r, hist1) := serve g gen rq hist in
      let '(rs, hist2) := serve_all g gen rqs' hist1 in
      (r :: rs, hist2)
  end.

(** The process: the module is imported, then requests are served.  When
    the import raises there is no application to serve anything. *)
Definition process (dotenv environ : gmap string string)
    (gen : capability CrewOutput) (rqs : list HttpRequest)
  : exception + list HttpResponse * list Crew :=
  match startup dotenv environ with
  | inl e => inl e
  | inr g => inr (serve_all g gen rqs [])
  end.

End Application.

(** The instruction texts of the calls of a trace, in order. *)
Definition instructions (calls : list Crew) : list string :=
  flat_map (fun c => map description (tasks c)) calls.

(** ** Requests in flight at the same time *)

(** The server runs each request's handler on its own.  In this first
    model the handlers are given the module globals as a value, and the
    runs of several requests are interleaved call by call; the model with
    the globals as a store that every request and the capability can read
    and write follows below. *)
Section Concurrent.

Context {CrewOutput A : Type}.

(** What a call of the capability yields. *)
Definition reply : Type := exception + CrewOutput.

(** A request in flight: the exception that ended it, or what is left
    of its handler. *)
Definition inflight : Type := exception + prog CrewOutput A.

(** One entry per call: the request that made it, the crew, the reply. *)
Definition event : Type := nat * Crew * reply.

(** The capability as all requests share it: its reply may depend on
    every call made so far, by any request. *)
Definition shared_capability : Type := list event -> nat -> Crew -> reply.

(** The call a request is about to make, if any. *)
Definition pending (t : inflight) : option Crew :=
  match t with
  | inr (Kickoff c _) => Some c
  | _ => None
  end.

(** The request receives the reply to its pending call. *)
Definition resume (t : inflight) (r : reply) : inflight :=
  match t with
  | inr (Kickoff _ k) =>
      match r with
      | inl e => inl e
      | inr x => inr (k x)
      end
  | _ => t
  end.

(** Request [i] is scheduled: when it has a call pending, it makes it. *)
Definition step (gen : shared_capability) (i : nat)
    (st : list inflight * list event) : list inflight * list event :=
  match st.1 !! i ≫= pending with
  | None => st
  | Some c =>
      let r := gen st.2 i c in
      (alter (fun t => resume t r) i st.1, st.2 ++ [(i, c, r)])
  end.

(** The requests take their steps in the order of [schedule]. *)
Definition interleave (gen : shared_capability) (schedule : list nat)
    (st : list inflight * list event) : list inflight * list event :=
  fold_left (fun st i => step gen i st) schedule st.

(** The replies request [i] received, oldest first. *)
Definition own (i : nat) (log : list event) : list reply :=
  omap (fun ev : event => if decide (ev.1.1 = i) then Some ev.2 else None) log.

(** A handler fed the replies [rs], with nothing else around it. *)
Definition replay (p : prog CrewOutput A) (rs : list reply) : inflight :=
  fold_left resume rs (inr p).

End Concurrent.

Arguments inflight : clear implicits.
Arguments event : clear implicits.
Arguments shared_capability : clear implicits.
Arguments reply : clear implicits.

Section Serving.

Context {CrewOutput : Type}.
Variable str : CrewOutput -> string.
Variable validate_str : json -> option string.
Variable validate_int : json -> option Z.

(** What the application starts for a request. *)
Definition in_flight (g : Globals) (rq : HttpRequest) : prog CrewOutput HttpResponse :=
  match app str validate_str validate_int g rq with
  | Reject r => mret r
  | Handle p => payload ← p; mret (OK payload)
  end.

(** The requests [rqs] have all arrived and none has made a call yet. *)
Definition arrived (g : Globals) (rqs : list HttpRequest)
  : list (inflight CrewOutput HttpResponse) * list (event CrewOutput) :=
  ((fun rq => inr (in_flight g rq)) <$> rqs, []).

(** The response of a request that is over. *)
Definition response_of (t : inflight CrewOutput HttpResponse) : option HttpResponse :=
  match t with
  | inl e => Some (Unhandled e)
  | inr (Ret r) => Some r
  | inr (Kickoff _ _) => None
  end.

End Serving.

(** ** The module globals as state the requests share *)

(** [gemini_llm] is created once, when the module is imported, and every
    agent of every request is built on it (lines 18, 68, 127, 138, 149).
    Here the module globals are a store: a handler reads them where the
    source evaluates the global name, the language can also assign them,
    and the capability may change them whenever it is called. *)
Section SharedGlobals.

Context {CrewOutput : Type}.
Variable str : CrewOutput -> string.
Variable validate_str : json -> option string.
Variable validate_int : json -> option Z.

(** A handler body over the store: it returns, it reads the globals, it
    assigns them, or it runs [c.kickoff()]. *)
Inductive sprog (A : Type) : Type :=
| SRet (a : A)
| SGet (k : Globals -> sprog A)
| SSet (g : Globals) (k : sprog A)
| SKickoff (c : Crew) (k : CrewOutput -> sprog A).

Global Arguments SRet {A} a.
Global Arguments SGet {A} k.
Global Arguments SSet {A} g k.
Global Arguments SKickoff {A} c k.

(** The calls of [p], with [f] applied to what it returns. *)
Fixpoint lift {A B : Type} (f : A -> B) (p : prog CrewOutput A) : sprog B :=
  match p with
  | Ret a => SRet (f a)
  | Kickoff c k => SKickoff c (fun x => lift f (k x))
  end.

(** [summarize_text]: the one agent is built on the global [gemini_llm]
    (line 68), read when the agent is built. *)
Definition summarize_text_shared (request : SummarizeRequest) : sprog HttpResponse :=
  SGet (fun g => lift OK (summarize_text str (gemini_llm g) request)).

(** The body of [generate_study_material] after its three agents are
    built, on the LLMs [L1], [L2] and [L3]. *)
Definition generate_with (L1 L2 L3 : LLM) (request : StudyMaterialRequest)
  : prog CrewOutput (gmap string string) :=
  let content := text request in
  let num_mcqs := num_mcqs request in
  topics_result ← kickoff (topics_crew L1 content);
  let topics_text := str topics_result in
  notes_result ← kickoff (notes_crew L2 topics_text content);
  let notes_text := str notes_result in
  mcq_result ← kickoff (mcq_crew L3 notes_text num_mcqs);
  let mcq_text := str mcq_result in
  mret {[ "topics" := topics_text;
          "notes" := notes_text;
          "mcqs" := mcq_text ]}.

(** [generate_study_material]: the three agents are built first, each on
    the global [gemini_llm] as it is when that agent is built (lines 127,
    138, 149). *)
Definition generate_study_material_shared (request : StudyMaterialRequest)
  : sprog HttpResponse :=
  SGet (fun g1 => SGet (fun g2 => SGet (fun g3 =>
    lift OK (generate_with (gemini_llm g1) (gemini_llm g2) (gemini_llm g3)
               request)))).

Definition with_body_shared {Req : Type} (validate : json -> option Req)
    (handler : Req -> sprog HttpResponse) (b : option json) : sprog HttpResponse :=
  match b ≫= validate with
  | None => SRet ValidationError
  | Some request => handler request
  end.

(** The routes, over the store. *)
Definition app_shared (rq : HttpRequest) : sprog HttpResponse :=
  match meth rq with
  | GET =>
      if String.eqb (path rq) "/" then SRet (OK read_root)
      else if String.eqb (path rq) "/health" then SRet (OK health_check)
      else SRet NoRoute
  | POST =>
      if String.eqb (path rq) "/summarize" then
        with_body_shared (SummarizeRequest_validate validate_str)
          summarize_text_shared (body rq)
      else if String.eqb (path rq) "/generate_study_material" then
        with_body_shared (StudyMaterialRequest_validate validate_str validate_int)
          generate_study_material_shared (body rq)
      else SRet NoRoute
  end.

(** The capability over the store: it sees the globals and all calls made
    so far by all requests, and it may leave the globals changed. *)
Definition store_capability : Type :=
  list (event CrewOutput) -> Globals -> nat -> Crew -> reply CrewOutput * Globals.

(** The requests in flight, the globals and the calls made so far. *)
Record world : Type := mkWorld {
  pool : list (exception + sprog HttpResponse);
  globals : Globals;
  calls_log : list (event CrewOutput);
}.

(** Request [i] is scheduled and takes its next step: it reads the
    globals, assigns them, or calls the capability. *)
Definition step_shared (gen : store_capability) (i : nat) (w : world) : world :=
  match pool w !! i with
  | Some (inr (SGet k)) =>
      {| pool := <[i := inr (k (globals w))]> (pool w);
         globals := globals w;
         calls_log := calls_log w |}
  | Some (inr (SSet g k)) =>
      {| pool := <[i := inr k]> (pool w);
         globals := g;
         calls_log := calls_log w |}
  | Some (inr (SKickoff c k)) =>
      let r := gen (calls_log w) (globals w) i c in
      {| pool := <[i := match r.1 with
                        | inl e => inl e
                        | inr x => inr (k x)
                        end]> (pool w);
         globals := r.2;
         calls_log := calls_log w ++ [(i, c, r.1)] |}
  | _ => w
  end.

Definition interleave_shared (gen : store_capability) (schedule : list nat)
    (w : world) : world :=
  fold_left (fun w i => step_shared gen i w) schedule w.

(** The requests [rqs] have all arrived, the globals are [g0]. *)
Definition arrived_shared (g0 : Globals) (rqs : list HttpRequest) : world :=
  {| pool := (fun rq => inr (app_shared rq)) <$> rqs;
     globals := g0;
     calls_log := [] |}.

(** The response of a request that is over. *)
Definition response_shared (t : exception + sprog HttpResponse) : option HttpResponse :=
  match t with
  | inl e => Some (Unhandled e)
  | inr (SRet r) => Some r
  | inr _ => None
  end.

(** [follows sp p]: the handler [sp] over the store returns what [p]
    returns when both are given the same replies, whatever it reads from
    the globals; a handler that assigns the globals follows nothing. *)
Inductive follows {A : Type} : sprog A -> prog CrewOutput A -> Prop :=
| follows_ret a : follows (SRet a) (Ret a)
| follows_get k p : (forall g, follows (k g) p) -> follows (SGet k) p
| follows_kickoff c c' k k' :
    (forall x, follows (k x) (k' x)) ->
    follows (SKickoff c k) (Kickoff c' k').

Inductive follows_inflight {A : Type}
  : exception + sprog A -> inflight CrewOutput A -> Prop :=
| follows_raised e : follows_inflight (inl e) (inl e)
| follows_running sp p : follows sp p -> follows_inflight (inr sp) (inr p).

(** [shadows ps w]: every request of the world [w] is, up to what it has
    read from the globals, where the replies to its own calls alone take
    the handler at the same place in [ps]. *)
Definition shadows (ps : list (prog CrewOutput HttpResponse)) (w : world) : Prop :=
  length (pool w) = length ps
  /\ forall i p, ps !! i = Some p ->
       exists t, pool w !! i = Some t
                 /\ follows_inflight t (replay p (own i (calls_log w))).

End SharedGlobals.

Arguments sprog : clear implicits.
Arguments store_capability : clear implicits.
Arguments world : clear implicits.

(** ** Stand-ins for the capability, to evaluate the model *)

(** A capability that answers its [k]-th call with the [k]-th scripted
    reply, and raises once the script is over. *)
Definition scripted (rs : list (reply string)) : capability string :=
  fun hist _ =>
    nth (length hist) rs (inl (Exception "RuntimeError" "no reply scripted")).

(** An LLM configuration as [startup] builds it. *)
Definition sample_llm : LLM :=
  {| model := "gemini/gemini-2.5-pro"; api_key := "k"; temperature := 3 # 10 |}.

Definition sample_globals : Globals :=
  {| GEMINI_API_KEY := "k"; gemini_llm := sample_llm |}.

(** The stand-in returns plain text, and [str] of it is the text. *)
Definition output_text (s : string) : string := s.

Definition stack_request : StudyMaterialRequest :=
  {| text := "Stack"; num_mcqs := -3 |}.

(** All three stages return; the notes quote the word of the request. *)
Definition three_replies : capability string :=
  scripted [inr "Stack: push, pop"; inr "Stack is a LIFO list"; inr "Q1. ..."].

(** The notes stage raises. *)
Definition quota_exceeded : exception := Exception "RuntimeError" "quota exceeded".

Definition notes_raise : capability string :=
  scripted [inr "Stack: push, pop"; inl quota_exceeded].

(** A capability shared by concurrent requests: its reply carries the
    number of calls made so far by all of them. *)
Definition counting : shared_capability string :=
  fun log _ _ => inr (pretty (length log)).

Definition post (p : string) (ms : list (string * json)) : HttpRequest :=
  {| meth := POST; path := p; body := Some (JObject ms) |}.

(** A capability over the store that puts a new key into [gemini_llm] at
    every call and answers with the number of calls made so far. *)
Definition rotating : store_capability string :=
  fun log g _ _ =>
    (inr (pretty (length log)),
     {| GEMINI_API_KEY := GEMINI_API_KEY g;
        gemini_llm := {| model := model (gemini_llm g);
                         api_key := "rotated";
                         temperature := temperature (gemini_llm g) |} |}).

(** A handler that is not in [main.py]: it returns what it reads from
    the globals. *)
Definition leaky : sprog string HttpResponse :=
  SGet (fun g => SRet (OK {[ "key" := api_key (gemini_llm g) ]})).

(** [stage_fails str L gen req hist e calls]: in a run of
    [generate_study_material] on [req] after the calls [hist], the
    capability raises [e] at one of the three stages, every stage before it
    having returned; [calls] are the calls up to the one that raised. *)
Inductive stage_fails {CrewOutput : Type} (str : CrewOutput -> string) (L : LLM)
    (gen : capability CrewOutput) (req : StudyMaterialRequest)
    (hist : list Crew) (e : exception) : list Crew -> Prop :=
| topics_stage_fails :
    gen hist (topics_crew L (text req)) = inl e ->
    stage_fails str L gen req hist e [topics_crew L (text req)]
| notes_stage_fails r1 :
    gen hist (topics_crew L (text req)) = inr r1 ->
    gen (hist ++ [topics_crew L (text req)])
        (notes_crew L (str r1) (text req)) = inl e ->
    stage_fails str L gen req hist e
      [topics_crew L (text req); notes_crew L (str r1) (text req)]
| mcq_stage_fails r1 r2 :
    gen hist (topics_crew L (text req)) = inr r1 ->
    gen (hist ++ [topics_crew L (text req)])
        (notes_crew L (str r1) (text req)) = inr r2 ->
    gen (hist ++ [topics_crew L (text req); notes_crew L (str r1) (text req)])
        (mcq_crew L (str r2) (num_mcqs req)) = inl e ->
    stage_fails str L gen req hist e
      [topics_crew L (text req); notes_crew L (str r1) (text req);
       mcq_crew L (str r2) (num_mcqs req)].

(** ** Shapes the handlers keep *)

(** A crew as the handlers build them: one agent, one task given to that
    agent, the agent on the LLM [L], and both verbose flags on. *)
Definition single_agent_crew (L : LLM) (c : Crew) : Prop :=
  exists (a : Agent) (t : Task),
    agents c = [a] /\ tasks c = [t] /\ agent t = a
    /\ llm a = L /\ agent_verbose a = true /\ crew_verbose c = true.

(** The lines of the notes instruction between its two inserted texts. *)
Definition content_heading : string :=
  nl +:+ nl +:+ "ORIGINAL CONTENT:" +:+ nl.

(** [over_within n t]: the request [t] is over after at most [n] more
    replies, whatever they are. *)
Inductive over_within {CrewOutput A : Type} : nat -> inflight CrewOutput A -> Prop :=
| over_raised n e : over_within n (inl e)
| over_returned n a : over_within n (inr (Ret a))
| over_after_call n c k :
    (forall x, over_within n (inr (k x))) ->
    over_within (S n) (inr (Kickoff c k)).

(** The calls of a trace made after the first [n]. *)
Definition calls_after (n : nat) (trace : list Crew) : list Crew := drop n trace.

(** A request with an object body of one member, "text". *)
Definition text_only (m : method) (p t : string) : HttpRequest :=
  {| meth := m; path := p; body := Some (JObject [("text", JString t)]) |}.

(** * Properties *)

(** ** Substrings *)

Lemma starts_with_app (p s : string) : starts_with p (p +:+ s) = true.
Proof.
  induction p as [|a p IH]; simpl; [reflexivity|].
  now rewrite Ascii.eqb_refl.
Qed.

Lemma starts_with_inv (p s : string) :
  starts_with p s = true -> exists post, s = p +:+ post.
Proof.
  revert s; induction p as [|a p IH]; intros s H.
  - now exists s.
  - destruct s as [|b s]; simpl in H; [discriminate|].
    destruct (Ascii.eqb_spec a b) as [->|]; [|discriminate].
    destruct (IH _ H) as [post ->]. now exists post.
Qed.

Lemma occurs_prefix (n h : string) : starts_with n h = true -> occurs n h = true.
Proof. intros H. destruct h; simpl in *; now rewrite H. Qed.

Lemma occurs_here (n t : string) : occurs n (n +:+ t) = true.
Proof. apply occurs_prefix, starts_with_app. Qed.

Lemma occurs_skip (n s t : string) : occurs n t = true -> occurs n (s +:+ t) = true.
Proof.
  intros H. induction s as [|a s IH]; simpl; [exact H|].
  rewrite IH. apply orb_true_r.
Qed.

(** [occurs] decides being a contiguous part. *)
Lemma occurs_spec (n h : string) :
  occurs n h = true <-> exists pre post, h = pre +:+ n +:+ post.
Proof.
  split.
  - induction h as [|a h IH]; simpl; intros H.
    + rewrite orb_false_r in H. destruct (starts_with_inv _ _ H) as [post E].
      now exists "", post.
    + apply orb_true_iff in H as [H|H].
      * destruct (starts_with_inv _ _ H) as [post E]. now exists "", post.
      * destruct (IH H) as (pre & post & ->). now exists (String a pre), post.
  - intros (pre & post & ->). apply occurs_skip, occurs_here.
Qed.

(** ** Cancelling in concatenations *)

Lemma length_string_app (s t : string) :
  String.length (s +:+ t) = (String.length s + String.length t)%nat.
Proof. induction s as [|a s IH]; simpl; [reflexivity|]. now rewrite IH. Qed.

Lemma string_app_cons (a : Ascii.ascii) (s t : string) :
  String a s +:+ t = String a (s +:+ t).
Proof. reflexivity. Qed.

Lemma string_app_assoc (s t u : string) : (s +:+ t) +:+ u = s +:+ t +:+ u.
Proof.
  induction s as [|a s IH]; [reflexivity|].
  rewrite !string_app_cons. now rewrite IH.
Qed.

Lemma string_app_inv_head (s t1 t2 : string) : s +:+ t1 = s +:+ t2 -> t1 = t2.
Proof.
  induction s as [|a s IH]; intros H; [exact H|].
  rewrite !string_app_cons in H. injection H as H. now apply IH.
Qed.

Lemma string_app_inv_tail (s1 s2 t : string) : s1 +:+ t = s2 +:+ t -> s1 = s2.
Proof.
  revert s2. induction s1 as [|a s1 IH]; intros [|b s2] H.
  - reflexivity.
  - apply (f_equal String.length) in H.
    rewrite !length_string_app in H. simpl in H. lia.
  - apply (f_equal String.length) in H.
    rewrite !length_string_app in H. simpl in H. lia.
  - rewrite !string_app_cons in H. injection H as -> H. f_equal. now apply IH.
Qed.

(** Finds a part of a concatenation written the way the templates are. *)
Ltac find_part :=
  cbn [description notes_task mcq_task topic_task summarize_task];
  repeat first [ apply occurs_here | apply occurs_skip ].

Lemma instructions_app (xs ys : list Crew) :
  instructions (xs ++ ys) = instructions xs ++ instructions ys.
Proof. unfold instructions. now rewrite !flat_map_app. Qed.

(** ** The two pipelines, run against any capability *)

Section Pipelines.

Context {CrewOutput : Type}.
Variable str : CrewOutput -> string.
Variable L : LLM.
Variable gen : capability CrewOutput.

(** The run of [summarize_text], reply by reply. *)
Lemma run_summarize_text (request : SummarizeRequest) (hist : list Crew) :
  let crew := {| agents := [summarizer_agent L];
                 tasks := [summarize_task L (sr_text request)];
                 crew_verbose := true |} in
  run gen (summarize_text str L request) hist =
    match gen hist crew with
    | inl e => (inl e, hist ++ [crew])
    | inr result => (inr {[ "summary" := str result ]}, hist ++ [crew])
    end.
Proof. reflexivity. Qed.

(** The run of [generate_study_material], reply by reply. *)
Lemma run_generate_study_material (request : StudyMaterialRequest) (hist : list Crew) :
  let c1 := topics_crew L (text request) in
  run gen (generate_study_material str L request) hist =
    match gen hist c1 with
    | inl e => (inl e, hist ++ [c1])
    | inr r1 =>
        let c2 := notes_crew L (str r1) (text request) in
        match gen (hist ++ [c1]) c2 with
        | inl e => (inl e, hist ++ [c1; c2])
        | inr r2 =>
            let c3 := mcq_crew L (str r2) (num_mcqs request) in
            match gen (hist ++ [c1; c2]) c3 with
            | inl e => (inl e, hist ++ [c1; c2; c3])
            | inr r3 =>
                (inr {[ "topics" := str r1; "notes" := str r2; "mcqs" := str r3 ]},
                 hist ++ [c1; c2; c3])
            end
        end
    end.
Proof.
  cbv zeta. unfold generate_study_material.
  cbn [mbind prog_mbind prog_bind kickoff run mret prog_ret].
  destruct (gen hist _) as [e|r1]; [reflexivity|].
  destruct (gen (hist ++ [_]) _) as [e|r2];
    rewrite <- ?(app_assoc hist); simpl; [reflexivity|].
  destruct (gen (hist ++ [_; _]) _) as [e|r3];
    rewrite <- ?(app_assoc hist); reflexivity.
Qed.

End Pipelines.

Section PipelineProperties.

Context {CrewOutput : Type}.
Variable str : CrewOutput -> string.
Variable L : LLM.

(** C1 (as amended).  In a run of [generate_study_material] in which the
    topics call returns [r1] and the notes call returns [r2], exactly three
    calls are made, in the order topics, notes, MCQ; the notes instruction
    contains [str r1] and the request text; the MCQ instruction contains
    [str r2], and it is determined by [str r2] and the requested count
    alone: any other run, on any other text, whose notes call returns the
    same string and whose count is the same submits the same MCQ crew. *)
Theorem generate_study_material_stages
    (gen : capability CrewOutput) (req : StudyMaterialRequest)
    (hist : list Crew) (r1 r2 : CrewOutput) :
  let content := text req in
  let c1 := topics_crew L content in
  let c2 := notes_crew L (str r1) content in
  let c3 := mcq_crew L (str r2) (num_mcqs req) in
  let i1 := description (topic_task L content) in
  let i2 := description (notes_task L (str r1) content) in
  let i3 := description (mcq_task L (str r2) (num_mcqs req)) in
  gen hist c1 = inr r1 ->
  gen (hist ++ [c1]) c2 = inr r2 ->
  (run gen (generate_study_material str L req) hist).2 = hist ++ [c1; c2; c3]
  /\ instructions [c1; c2; c3] = [i1; i2; i3]
  /\ occurs (str r1) i2 = true
  /\ occurs content i2 = true
  /\ occurs (str r2) i3 = true
  /\ (forall (gen' : capability CrewOutput) (req' : StudyMaterialRequest)
        (hist' : list Crew) (r1' r2' : CrewOutput),
        num_mcqs req' = num_mcqs req ->
        gen' hist' (topics_crew L (text req')) = inr r1' ->
        gen' (hist' ++ [topics_crew L (text req')])
             (notes_crew L (str r1') (text req')) = inr r2' ->
        str r2' = str r2 ->
        last (run gen' (generate_study_material str L req') hist').2 = Some c3).
Proof.
  intros content c1 c2 c3 i1 i2 i3 H1 H2.
  repeat split.
  - rewrite run_generate_study_material. cbv zeta. fold content c1.
    rewrite H1. fold c2. rewrite H2. fold c3.
    now destruct (gen (hist ++ [c1; c2]) c3).
  - subst i2. find_part.
  - subst i2. find_part.
  - subst i3. find_part.
  - intros gen' req' hist' r1' r2' Hn G1 G2 Hs.
    rewrite run_generate_study_material. cbv zeta.
    rewrite G1, G2, Hs, Hn. fold c3.
    destruct (gen' _ c3); cbn [snd]; now rewrite last_app.
Qed.

(** C2.  When the three calls return [r1], [r2] and [r3], the handler
    returns a dict with exactly the keys "topics", "notes" and "mcqs",
    holding [str r1], [str r2] and [str r3]. *)
Theorem generate_study_material_response
    (gen : capability CrewOutput) (req : StudyMaterialRequest)
    (hist : list Crew) (r1 r2 r3 : CrewOutput) :
  let c1 := topics_crew L (text req) in
  let c2 := notes_crew L (str r1) (text req) in
  let c3 := mcq_crew L (str r2) (num_mcqs req) in
  gen hist c1 = inr r1 ->
  gen (hist ++ [c1]) c2 = inr r2 ->
  gen (hist ++ [c1; c2]) c3 = inr r3 ->
  exists response : gmap string string,
    (run gen (generate_study_material str L req) hist).1 = inr response
    /\ dom response = {[ "topics"; "notes"; "mcqs" ]}
    /\ response !! "topics" = Some (str r1)
    /\ response !! "notes" = Some (str r2)
    /\ response !! "mcqs" = Some (str r3).
Proof.
  intros c1 c2 c3 H1 H2 H3.
  exists {[ "topics" := str r1; "notes" := str r2; "mcqs" := str r3 ]}.
  split.
  - rewrite run_generate_study_material. cbv zeta.
    fold c1. rewrite H1. fold c2. rewrite H2. fold c3. now rewrite H3.
  - split; [|by simplify_map_eq].
    rewrite !dom_insert_L, dom_singleton_L. set_solver.
Qed.

(** C4.  When the capability raises [e] at some stage of
    [generate_study_material], the run ends with [e] itself and no
    response, and the calls made are those up to the one that raised. *)
Theorem generate_study_material_failure
    (gen : capability CrewOutput) (req : StudyMaterialRequest)
    (hist : list Crew) (e : exception) (calls : list Crew) :
  stage_fails str L gen req hist e calls ->
  run gen (generate_study_material str L req) hist = (inl e, hist ++ calls).
Proof.
  intros H. rewrite run_generate_study_material. cbv zeta.
  destruct H as [H1 | r1 H1 H2 | r1 r2 H1 H2 H3].
  - now rewrite H1.
  - now rewrite H1, H2.
  - now rewrite H1, H2, H3.
Qed.

(** C7 (as amended).  When the one call of [summarize_text] returns
    [result], the handler returns a dict with the single key "summary",
    holding [str result]; it is not empty whenever [str result] is not. *)
Theorem summarize_text_response
    (gen : capability CrewOutput) (request : SummarizeRequest)
    (hist : list Crew) (result : CrewOutput) :
  let crew := {| agents := [summarizer_agent L];
                 tasks := [summarize_task L (sr_text request)];
                 crew_verbose := true |} in
  gen hist crew = inr result ->
  exists response : gmap string string,
    run gen (summarize_text str L request) hist = (inr response, hist ++ [crew])
    /\ dom response = {[ "summary" ]}
    /\ response !! "summary" = Some (str result)
    /\ (str result <> "" -> response !! "summary" <> Some "").
Proof.
  intros crew H. exists {[ "summary" := str result ]}.
  rewrite run_summarize_text. cbv zeta. fold crew. rewrite H.
  split; [reflexivity|]. split; [apply dom_singleton_L|].
  split; [by simplify_map_eq|].
  intros Hne. rewrite lookup_singleton_eq. congruence.
Qed.

End PipelineProperties.

(** ** Decimal literals and the validation of an [int] *)

Lemma pretty_N_char_digit (d : N) :
  (d < 10)%N ->
  is_digit (pretty_N_char d) = true
  /\ (Ascii.N_of_ascii (pretty_N_char d) - 48 = d)%N.
Proof.
  intros Hd.
  assert (d = 0 \/ d = 1 \/ d = 2 \/ d = 3 \/ d = 4 \/ d = 5 \/ d = 6
          \/ d = 7 \/ d = 8 \/ d = 9)%N as H by lia.
  repeat (destruct H as [->|H]); try subst d; split; reflexivity.
Qed.

(** Reading the digits that [pretty_N_go x] puts in front of [s]. *)
Lemma digits_value_pretty_N_go (x : N) :
  forall (s : string) (acc : N),
    exists k : N,
      digits_value acc (pretty_N_go x s) = digits_value (acc * 10 ^ k + x)%N s.
Proof.
  induction (N.lt_wf_0 x) as [x _ IH]. intros s acc.
  destruct (N.eq_dec x 0%N) as [->|Hx].
  - exists 0%N. rewrite pretty_N_go_0. f_equal. rewrite N.pow_0_r. lia.
  - rewrite pretty_N_go_step by lia.
    destruct (IH (x / 10)%N (N.div_lt x 10 ltac:(lia) ltac:(lia))
                (String (pretty_N_char (x mod 10)) s) acc) as [k Hk].
    destruct (pretty_N_char_digit (x mod 10)) as [Hd Hv];
      [apply N.mod_lt; lia|].
    exists (N.succ k). rewrite Hk. cbn [digits_value]. rewrite Hd, Hv.
    f_equal. rewrite N.pow_succ_r by lia.
    pose proof (N.div_mod x 10 ltac:(lia)) as Hdm. lia.
Qed.

Lemma digits_value_pretty_pos (p : positive) :
  digits_value 0 (pretty_N_go (N.pos p) "") = Some (N.pos p).
Proof.
  destruct (digits_value_pretty_N_go (N.pos p) "" 0%N) as [k Hk].
  rewrite Hk. cbn [digits_value]. f_equal.
Qed.

(** The first character of what reads as digits is a digit. *)
Lemma digits_value_head (c : Ascii.ascii) (s : string) (acc n : N) :
  digits_value acc (String c s) = Some n -> is_digit c = true.
Proof. cbn. now destruct (is_digit c). Qed.

Lemma int_of_str_digits (s : string) (n : N) :
  s <> "" -> digits_value 0 s = Some n -> int_of_str s = Some (Z.of_N n).
Proof.
  destruct s as [|c s]; [now intros []|]. intros _ H.
  pose proof (digits_value_head _ _ _ _ H) as Hc.
  unfold int_of_str.
  destruct (String.eqb_spec (String c "") "-") as [[= ->]|_]; [discriminate|].
  now rewrite H.
Qed.

(** The literal the f-string writes for a count denotes that count. *)
Lemma int_of_str_str_int (n : Z) : int_of_str (str_int n) = Some n.
Proof.
  assert (Hpos : forall p, pretty_N_go (N.pos p) "" <> "").
  { intros p E. pose proof (digits_value_pretty_pos p) as H.
    rewrite E in H. discriminate. }
  unfold str_int, pretty, pretty_Z.
  destruct n as [|p|p].
  - reflexivity.
  - unfold pretty, pretty_positive, pretty, pretty_N.
    rewrite decide_False by discriminate.
    apply (int_of_str_digits _ (N.pos p)); [apply Hpos|].
    apply digits_value_pretty_pos.
  - unfold pretty, pretty_positive, pretty, pretty_N.
    rewrite decide_False by discriminate.
    pose proof (Hpos p) as Hne. pose proof (digits_value_pretty_pos p) as Hd.
    set (digits := pretty_N_go (N.pos p) "") in *.
    assert (E : int_of_str ("-" +:+ digits)
                = match digits with
                  | EmptyString => None
                  | String _ _ => (fun n => - Z.of_N n) <$> digits_value 0 digits
                  end) by reflexivity.
    rewrite E. destruct digits as [|c s]; [now destruct Hne|].
    now rewrite Hd.
Qed.



Section ApplicationProperties.

Context {CrewOutput : Type}.
Variable str : CrewOutput -> string.
Variable validate_str : json -> option string.
Variable validate_int : json -> option Z.

(** A body that validation rejects never reaches a handler. *)
Lemma with_body_rejected {Req : Type} (validate : json -> option Req)
    (handler : Req -> prog CrewOutput (gmap string string)) (b : option json) :
  b ≫= validate = None -> with_body validate handler b = Reject ValidationError.
Proof. unfold with_body. now intros ->. Qed.

(** C3.  A POST to [/generate_study_material] whose "text" member
    validates and whose "num_mcqs" member is absent, or is any integer at
    all, negative ones included, is accepted: the validated count is 5
    when the member is absent and the integer itself otherwise, with no
    check of its range; the handler runs, and when the first two calls
    return, the third call is the MCQ crew for that count, whose
    instruction contains "Create around <count> MCQs." with the count
    written as the decimal literal that denotes it. *)
Theorem mcq_instruction_embeds_count
    (undecided : json -> option Z)
    (g : Globals) (gen : capability CrewOutput) (rq : HttpRequest)
    (hist : list Crew) (ms : list (string * json)) (v : json) (t : string)
    (count : option Z) (r1 r2 : CrewOutput) :
  let n := default 5 count in
  let c1 := topics_crew (gemini_llm g) t in
  let c2 := notes_crew (gemini_llm g) (str r1) t in
  let c3 := mcq_crew (gemini_llm g) (str r2) n in
  let i3 := description (mcq_task (gemini_llm g) (str r2) n) in
  meth rq = POST ->
  path rq = "/generate_study_material" ->
  body rq = Some (JObject ms) ->
  member "text" ms = Some v ->
  validate_str v = Some t ->
  member "num_mcqs" ms = JInt <$> count ->
  gen hist c1 = inr r1 ->
  gen (hist ++ [c1]) c2 = inr r2 ->
  StudyMaterialRequest_validate validate_str (pydantic_int undecided) (JObject ms)
    = Some {| text := t; num_mcqs := n |}
  /\ (serve str validate_str (pydantic_int undecided) g gen rq hist).2
     = hist ++ [c1; c2; c3]
  /\ instructions [c3] = [i3]
  /\ occurs (str_int n) i3 = true
  /\ occurs ("Create around " +:+ str_int n +:+ " MCQs.") i3 = true
  /\ int_of_str (str_int n) = Some n.
Proof.
  intros n c1 c2 c3 i3 Hm Hp Hb Ht Hv Hc H1 H2.
  assert (Hval : StudyMaterialRequest_validate validate_str (pydantic_int undecided)
                   (JObject ms) = Some {| text := t; num_mcqs := n |}).
  { unfold StudyMaterialRequest_validate. rewrite Ht, Hv. cbn. rewrite Hc.
    subst n. now destruct count. }
  split; [exact Hval|]. split.
  - unfold serve, app, with_body. rewrite Hm, Hp, Hb.
    cbn [String.eqb Ascii.eqb Bool.eqb]. cbn [mbind option_bind].
    rewrite Hval. rewrite run_generate_study_material. cbv zeta.
    cbn [text num_mcqs]. fold c1. rewrite H1. fold c2. rewrite H2. fold c3.
    now destruct (gen (hist ++ [c1; c2]) c3).
  - split; [reflexivity|]. split; [subst i3; find_part|]. split.
    + subst i3. cbn [description mcq_task].
      do 8 apply occurs_skip.
      assert (E : forall rest : string,
                "Create around " +:+ str_int n +:+ " MCQs." +:+ rest
                = ("Create around " +:+ str_int n +:+ " MCQs.") +:+ rest)
        by (intros rest; now rewrite !string_app_assoc).
      rewrite E. apply occurs_here.
    + apply int_of_str_str_int.
Qed.

(** C5.  A POST to [/summarize] or [/generate_study_material] whose body
    is not JSON, or is an object with no "text" member, is answered by a
    validation error and the capability is not called. *)
Theorem missing_text_rejected
    (g : Globals) (gen : capability CrewOutput) (rq : HttpRequest)
    (hist : list Crew) :
  meth rq = POST ->
  path rq = "/summarize" \/ path rq = "/generate_study_material" ->
  body rq = None
    \/ (exists ms, body rq = Some (JObject ms) /\ member "text" ms = None) ->
  serve str validate_str validate_int g gen rq hist = (ValidationError, hist).
Proof.
  intros Hm Hp Hb. unfold serve, app. rewrite Hm.
  assert (Hs : body rq ≫= SummarizeRequest_validate validate_str = None).
  { destruct Hb as [->|(ms & -> & Ht)]; [reflexivity|]. cbn. now rewrite Ht. }
  assert (Hg : body rq ≫= StudyMaterialRequest_validate validate_str validate_int = None).
  { destruct Hb as [->|(ms & -> & Ht)]; [reflexivity|]. cbn. now rewrite Ht. }
  destruct Hp as [->| ->]; cbn [String.eqb Ascii.eqb Bool.eqb];
    now rewrite with_body_rejected.
Qed.


(** C6.  When neither the environment nor the [.env] file sets
    [GEMINI_API_KEY], the import raises [ValueError], and the process
    answers no request and calls the capability for none, whatever the
    requests are. *)
Theorem missing_key_refuses_to_start
    (dotenv environ : gmap string string)
    (gen : capability CrewOutput) (rqs : list HttpRequest) :
  environ !! "GEMINI_API_KEY" = None ->
  dotenv !! "GEMINI_API_KEY" = None ->
  startup dotenv environ
    = inl (ValueError "GEMINI_API_KEY is not set. Please add it to your .env file.")
  /\ process str validate_str validate_int dotenv environ gen rqs
    = inl (ValueError "GEMINI_API_KEY is not set. Please add it to your .env file.").
Proof.
  intros He Hd.
  assert (Hs : startup dotenv environ
    = inl (ValueError "GEMINI_API_KEY is not set. Please add it to your .env file.")).
  { unfold startup, getenv, load_dotenv.
    assert (Hu : (environ ∪ dotenv) !! "GEMINI_API_KEY" = None)
      by now apply lookup_union_None.
    now rewrite Hu. }
  split; [exact Hs|]. unfold process. now rewrite Hs.
Qed.

(** C9.  [GET /] is answered by the one dict
    [{"message": "Study Material Generator API is running 🚀"}], whatever
    the globals, the capability, the calls made before and the body sent,
    and the capability is not called. *)
Theorem read_root_constant
    (g : Globals) (gen : capability CrewOutput) (b : option json)
    (hist : list Crew) :
  serve str validate_str validate_int g gen {| meth := GET; path := "/"; body := b |} hist
    = (OK {[ "message" := "Study Material Generator API is running 🚀" ]}, hist)
  /\ read_root = {[ "message" := "Study Material Generator API is running 🚀" ]}.
Proof. split; reflexivity. Qed.

End ApplicationProperties.

(** ** Interleaved requests *)

Section Interleaving.

Context {CrewOutput A : Type}.
Implicit Types (p : prog CrewOutput A) (t : inflight CrewOutput A).
Implicit Types (log : list (event CrewOutput)) (r : reply CrewOutput).
Implicit Types (ps : list (prog CrewOutput A)).
Implicit Types (st : list (inflight CrewOutput A) * list (event CrewOutput)).

Lemma replay_snoc p (rs : list (reply CrewOutput)) r :
  replay p (rs ++ [r]) = resume (replay p rs) r.
Proof. unfold replay. now rewrite fold_left_app. Qed.

Lemma own_snoc_same (i : nat) log (c : Crew) r :
  own i (log ++ [(i, c, r)]) = own i log ++ [r].
Proof.
  unfold own. rewrite omap_app. cbn. now rewrite decide_True.
Qed.

Lemma own_snoc_other (i j : nat) log (c : Crew) r :
  i <> j -> own j (log ++ [(i, c, r)]) = own j log.
Proof.
  intros Hij. unfold own. rewrite omap_app. cbn.
  rewrite decide_False by exact Hij. apply app_nil_r.
Qed.

(** A handler run on its own ends where the replay of the replies it
    was given ends. *)
Lemma run_replay (gen : capability CrewOutput) p (hist : list Crew) :
  exists rs : list (reply CrewOutput),
    length rs = (length (run gen p hist).2 - length hist)%nat
    /\ replay p rs = match (run gen p hist).1 with
                     | inl e => inl e
                     | inr a => inr (Ret a)
                     end.
Proof.
  revert hist. induction p as [a|c k IH]; intros hist.
  - exists []. cbn. split; [lia|reflexivity].
  - cbn. destruct (gen hist c) as [e|x] eqn:Hg.
    + exists [inl e]. cbn. rewrite length_app. cbn. split; [lia|reflexivity].
    + destruct (IH x (hist ++ [c])) as (rs & Hl & Hr).
      exists (inr x :: rs). split; [|exact Hr].
      cbn. rewrite Hl, length_app. cbn.
      assert (length (hist ++ [c]) <= length (run gen (k x) (hist ++ [c])).2)%nat.
      { clear. generalize (hist ++ [c]) as h. generalize (k x) as q.
        induction q as [a|c' k' IHq]; intros h; cbn; [lia|].
        destruct (gen h c') as [e'|y]; cbn; [rewrite length_app; cbn; lia|].
        specialize (IHq y (h ++ [c'])). rewrite length_app in IHq. cbn in IHq. lia. }
      rewrite length_app in H. cbn in H. lia.
Qed.

End Interleaving.

Section Isolation.

Context {CrewOutput : Type}.
Variable str : CrewOutput -> string.
Variable validate_str : json -> option string.
Variable validate_int : json -> option Z.

(** Over the store, each route does what it does on globals given as a
    value, whatever it reads. *)
Lemma follows_app (g : Globals) (rq : HttpRequest) :
  follows (app_shared str validate_str validate_int rq)
          (in_flight str validate_str validate_int g rq).
Proof.
  unfold app_shared, in_flight, app, with_body_shared, with_body.
  destruct (meth rq).
  - destruct (String.eqb (path rq) "/"); [constructor|].
    destruct (String.eqb (path rq) "/health"); constructor.
  - destruct (String.eqb (path rq) "/summarize").
    + destruct (body rq ≫= _) as [r|]; [|constructor].
      constructor. intros g'. constructor. intros x. constructor.
    + destruct (String.eqb (path rq) "/generate_study_material"); [|constructor].
      destruct (body rq ≫= _) as [r|]; [|constructor].
      constructor. intros g1. constructor. intros g2. constructor. intros g3.
      constructor. intros x1. constructor. intros x2.
      constructor. intros x3. constructor.
Qed.

Lemma shadows_arrived (g g0 : Globals) (rqs : list HttpRequest) :
  shadows (in_flight str validate_str validate_int g <$> rqs)
          (arrived_shared str validate_str validate_int g0 rqs).
Proof.
  split; [cbn; now rewrite !length_fmap|].
  intros i p Hi. cbn. rewrite list_lookup_fmap in Hi. rewrite list_lookup_fmap.
  destruct (rqs !! i) as [rq|]; simplify_eq/=.
  eexists. split; [reflexivity|]. constructor. apply follows_app.
Qed.

(** A step of a request that shadows a handler of [main.py] keeps every
    request shadowing, and keeps every property of the globals that the
    capability keeps: such a request reads the globals and never assigns
    them. *)
Lemma shadows_step (gen : store_capability CrewOutput)
    (ps : list (prog CrewOutput HttpResponse)) (P : Globals -> Prop)
    (i : nat) (w : world CrewOutput) :
  (forall log s j c, P s -> P (gen log s j c).2) ->
  shadows ps w /\ P (globals w) ->
  shadows ps (step_shared gen i w) /\ P (globals (step_shared gen i w)).
Proof.
  intros Hgen [[Hlen Hsh] HP]. unfold step_shared.
  destruct (pool w !! i) as [[e|sp]|] eqn:Hi; [now repeat split| |now repeat split].
  assert (Hlt : (i < length (pool w))%nat) by (eapply lookup_lt_Some; eauto).
  destruct (ps !! i) as [p|] eqn:Hp;
    [|apply lookup_ge_None in Hp; lia].
  destruct (Hsh i p Hp) as (t & Ht & Hf). rewrite Hi in Ht. simplify_eq.
  inversion Hf as [|sp' p' Hfp E1 E2]; subst. clear Hf.
  destruct sp as [a|k|g' k|c k].
  - now repeat split.
  - inversion Hfp as [|k0 p0 Hk|]; subst.
    split; [|exact HP]. split; [cbn; now rewrite length_insert|].
    intros j q Hq. cbn [pool calls_log].
    destruct (decide (i = j)) as [<-|Hij].
    + rewrite list_lookup_insert_eq by exact Hlt. eexists. split; [reflexivity|].
      rewrite Hp in Hq. simplify_eq. rewrite <- E2. constructor. apply Hk.
    + rewrite list_lookup_insert_ne by exact Hij. now apply Hsh.
  - inversion Hfp.
  - inversion Hfp as [| |c0 c' k0 k' Hk]; subst.
    split; [|apply Hgen, HP]. split; [cbn; now rewrite length_insert|].
    intros j q Hq. cbn [pool calls_log].
    destruct (decide (i = j)) as [<-|Hij].
    + rewrite list_lookup_insert_eq by exact Hlt. eexists. split; [reflexivity|].
      rewrite Hp in Hq. simplify_eq.
      rewrite own_snoc_same, replay_snoc, <- E2. cbn.
      destruct (gen (calls_log w) (globals w) i c).1; constructor. apply Hk.
    + rewrite list_lookup_insert_ne by exact Hij.
      rewrite own_snoc_other by exact Hij. now apply Hsh.
Qed.

Lemma shadows_interleave (gen : store_capability CrewOutput)
    (ps : list (prog CrewOutput HttpResponse)) (P : Globals -> Prop)
    (schedule : list nat) (w : world CrewOutput) :
  (forall log s j c, P s -> P (gen log s j c).2) ->
  shadows ps w /\ P (globals w) ->
  shadows ps (interleave_shared gen schedule w)
  /\ P (globals (interleave_shared gen schedule w)).
Proof.
  intros Hgen. unfold interleave_shared. revert w.
  induction schedule as [|i schedule IH]; intros w H; [exact H|].
  cbn. apply IH, shadows_step; assumption.
Qed.

(** The response of a request that shadows a handler is the response of
    that handler on the same replies. *)
Lemma shadows_response (ps : list (prog CrewOutput HttpResponse))
    (w : world CrewOutput) (i : nat) (p : prog CrewOutput HttpResponse)
    (response : HttpResponse) :
  shadows ps w ->
  ps !! i = Some p ->
  pool w !! i ≫= response_shared = Some response ->
  response_of (replay p (own i (calls_log w))) = Some response.
Proof.
  intros [_ Hsh] Hp Hr. destruct (Hsh i p Hp) as (t & Ht & Hf).
  rewrite Ht in Hr. cbn in Hr.
  inversion Hf as [e E1 E2|sp q Hfq E1 E2]; subst; [exact Hr|].
  destruct sp as [a|k|g' k|c k]; try discriminate.
  inversion Hfq; subst. exact Hr.
Qed.

(** C8.  The module globals, [gemini_llm] among them, are the one state
    the requests share, and here any request and the capability itself
    could change them.  With the requests of [main.py] in flight at the
    same time, their steps interleaved in any order: the response of each
    request is the response its own handler gives on the replies to its
    own calls, whatever the globals hold and whatever the other requests
    do; no handler assigns the globals, so every property of them that
    the capability keeps holds throughout; and two executions that give a
    request the same replies give it the same response. *)
Theorem requests_isolated
    (g0 : Globals) (gen : store_capability CrewOutput)
    (rqs : list HttpRequest) (schedule : list nat)
    (i : nat) (rq : HttpRequest) :
  rqs !! i = Some rq ->
  let w := interleave_shared gen schedule
             (arrived_shared str validate_str validate_int g0 rqs) in
  (forall (g : Globals) (response : HttpResponse),
      pool w !! i ≫= response_shared = Some response ->
      response_of (replay (in_flight str validate_str validate_int g rq)
                          (own i (calls_log w)))
      = Some response)
  /\ (forall P : Globals -> Prop,
        P g0 ->
        (forall log s j c, P s -> P (gen log s j c).2) ->
        P (globals w))
  /\ (forall (g0' : Globals) (gen' : store_capability CrewOutput)
         (rqs' : list HttpRequest) (schedule' : list nat) (i' : nat)
         (response response' : HttpResponse),
        rqs' !! i' = Some rq ->
        let w' := interleave_shared gen' schedule'
                    (arrived_shared str validate_str validate_int g0' rqs') in
        own i' (calls_log w') = own i (calls_log w) ->
        pool w !! i ≫= response_shared = Some response ->
        pool w' !! i' ≫= response_shared = Some response' ->
        response' = response).
Proof.
  intros Hi w.
  assert (Hresp : forall g0 gen rqs schedule i,
    rqs !! i = Some rq ->
    forall g response,
      pool (interleave_shared gen schedule
              (arrived_shared str validate_str validate_int g0 rqs)) !! i
        ≫= response_shared = Some response ->
      response_of (replay (in_flight str validate_str validate_int g rq)
        (own i (calls_log (interleave_shared gen schedule
              (arrived_shared str validate_str validate_int g0 rqs)))))
      = Some response).
  { clear. intros g0 gen rqs schedule i Hi g response.
    apply (shadows_response (in_flight str validate_str validate_int g <$> rqs)).
    - apply (shadows_interleave gen _ (fun _ => True)); [tauto|].
      split; [apply shadows_arrived|exact I].
    - now rewrite list_lookup_fmap, Hi. }
  split; [now apply Hresp|]. split.
  - intros P HP Hgen.
    apply (shadows_interleave gen
             (in_flight str validate_str validate_int g0 <$> rqs) P); [exact Hgen|].
    split; [apply shadows_arrived|exact HP].
  - intros g0' gen' rqs' schedule' i' response response' Hi' w' Hown Hr Hr'.
    apply (Hresp _ _ _ _ _ Hi g0) in Hr.
    apply (Hresp _ _ _ _ _ Hi' g0) in Hr'.
    fold w in Hr. fold w' in Hr'. rewrite Hown in Hr'. congruence.
Qed.

(** The model can tell a handler that is not isolated: one that returns
    what it reads from the globals answers differently after a call of
    another request, with no call of its own. *)
Lemma leaky_handler_sees_other_requests :
  let busy := inr (app_shared output_text exact_str (pydantic_int reject_undecided)
                     (text_only POST "/summarize" "Stack")) in
  let start := {| pool := [busy; inr leaky];
                  globals := sample_globals;
                  calls_log := [] |} in
  pool (interleave_shared rotating [1%nat] start) !! 1%nat ≫= response_shared
    = Some (OK {[ "key" := "k" ]})
  /\ pool (interleave_shared rotating [0; 0; 1]%nat start) !! 1%nat ≫= response_shared
     = Some (OK {[ "key" := "rotated" ]}).
Proof. split; reflexivity. Qed.

End Isolation.

(** ** The theorems at concrete inputs *)

Lemma generate_study_material_stages_witness :
  let c1 := topics_crew sample_llm "Stack" in
  let c2 := notes_crew sample_llm "Stack: push, pop" "Stack" in
  let c3 := mcq_crew sample_llm "Stack is a LIFO list" (-3) in
  three_replies [] c1 = inr "Stack: push, pop"
  /\ three_replies [c1] c2 = inr "Stack is a LIFO list"
  /\ (run three_replies
        (generate_study_material output_text sample_llm stack_request) []).2
     = [c1; c2; c3].
Proof.
  intros c1 c2 c3.
  assert (H1 : three_replies [] c1 = inr "Stack: push, pop") by reflexivity.
  assert (H2 : three_replies ([] ++ [c1]) c2 = inr "Stack is a LIFO list")
    by reflexivity.
  split; [exact H1|]. split; [exact H2|].
  exact (proj1 (generate_study_material_stages output_text sample_llm
                  three_replies stack_request [] _ _ H1 H2)).
Defined.

(** C1 as stated fails: here the text of the request is "Stack", the notes
    returned by the second call quote it, and the MCQ instruction, which
    embeds the notes, contains the text of the request. *)
Lemma mcq_instruction_contains_request_text :
  let c1 := topics_crew sample_llm "Stack" in
  let c2 := notes_crew sample_llm "Stack: push, pop" "Stack" in
  let trace :=
    (run three_replies
       (generate_study_material output_text sample_llm stack_request) []).2 in
  three_replies [] c1 = inr "Stack: push, pop"
  /\ three_replies [c1] c2 = inr "Stack is a LIFO list"
  /\ exists i3 : string,
       instructions trace !! 2%nat = Some i3
       /\ occurs (text stack_request) i3 = true.
Proof.
  cbv zeta. split; [reflexivity|]. split; [reflexivity|].
  exists (description (mcq_task sample_llm "Stack is a LIFO list" (-3))).
  split; [reflexivity|]. vm_compute. reflexivity.
Qed.

Lemma generate_study_material_response_witness :
  let c1 := topics_crew sample_llm "Stack" in
  let c2 := notes_crew sample_llm "Stack: push, pop" "Stack" in
  let c3 := mcq_crew sample_llm "Stack is a LIFO list" (-3) in
  three_replies [] c1 = inr "Stack: push, pop"
  /\ three_replies [c1] c2 = inr "Stack is a LIFO list"
  /\ three_replies [c1; c2] c3 = inr "Q1. ..."
  /\ exists response : gmap string string,
       (run three_replies
          (generate_study_material output_text sample_llm stack_request) []).1
         = inr response
       /\ dom response = {[ "topics"; "notes"; "mcqs" ]}
       /\ response !! "topics" = Some "Stack: push, pop"
       /\ response !! "notes" = Some "Stack is a LIFO list"
       /\ response !! "mcqs" = Some "Q1. ...".
Proof.
  intros c1 c2 c3.
  assert (H1 : three_replies [] c1 = inr "Stack: push, pop") by reflexivity.
  assert (H2 : three_replies ([] ++ [c1]) c2 = inr "Stack is a LIFO list")
    by reflexivity.
  assert (H3 : three_replies ([] ++ [c1; c2]) c3 = inr "Q1. ...") by reflexivity.
  split; [exact H1|]. split; [exact H2|]. split; [exact H3|].
  exact (generate_study_material_response output_text sample_llm
           three_replies stack_request [] _ _ _ H1 H2 H3).
Defined.

Lemma generate_study_material_failure_witness :
  let c1 := topics_crew sample_llm "Stack" in
  let c2 := notes_crew sample_llm "Stack: push, pop" "Stack" in
  stage_fails output_text sample_llm notes_raise stack_request []
    quota_exceeded [c1; c2]
  /\ run notes_raise
       (generate_study_material output_text sample_llm stack_request) []
     = (inl quota_exceeded, [c1; c2]).
Proof.
  intros c1 c2.
  assert (H : stage_fails output_text sample_llm notes_raise stack_request []
                quota_exceeded [c1; c2]).
  { apply (notes_stage_fails output_text sample_llm notes_raise stack_request []
             quota_exceeded "Stack: push, pop"); reflexivity. }
  split; [exact H|].
  exact (generate_study_material_failure output_text sample_llm notes_raise
           stack_request [] quota_exceeded _ H).
Defined.

Lemma mcq_instruction_embeds_count_witness :
  let ms := [("text", JString "Stack"); ("num_mcqs", JInt (-3))] in
  let rq := post "/generate_study_material" ms in
  let c1 := topics_crew sample_llm "Stack" in
  let c2 := notes_crew sample_llm "Stack: push, pop" "Stack" in
  let c3 := mcq_crew sample_llm "Stack is a LIFO list" (-3) in
  member "num_mcqs" ms = JInt <$> Some (-3)
  /\ three_replies [c1] c2 = inr "Stack is a LIFO list"
  /\ StudyMaterialRequest_validate exact_str (pydantic_int reject_undecided)
       (JObject ms) = Some stack_request
  /\ (serve output_text exact_str (pydantic_int reject_undecided)
        sample_globals three_replies rq []).2 = [c1; c2; c3]
  /\ occurs "Create around -3 MCQs."
       (description (mcq_task sample_llm "Stack is a LIFO list" (-3))) = true
  /\ int_of_str "-3" = Some (-3).
Proof.
  intros ms rq c1 c2 c3.
  split; [reflexivity|]. split; [reflexivity|].
  destruct (mcq_instruction_embeds_count output_text exact_str reject_undecided
              sample_globals three_replies rq [] ms (JString "Stack") "Stack"
              (Some (-3)) "Stack: push, pop" "Stack is a LIFO list"
              eq_refl eq_refl eq_refl eq_refl eq_refl eq_refl eq_refl eq_refl)
    as (Hv & Ht & _ & _ & Hphrase & Hint).
  split; [exact Hv|]. split; [exact Ht|]. split; [exact Hphrase|exact Hint].
Defined.

Lemma missing_text_rejected_witness :
  let rq := post "/summarize" [("num_mcqs", JInt 3)] in
  meth rq = POST
  /\ path rq = "/summarize"
  /\ member "text" [("num_mcqs", JInt 3)] = None
  /\ serve output_text exact_str (pydantic_int reject_undecided) sample_globals three_replies rq []
     = (ValidationError, []).
Proof.
  intros rq. split; [reflexivity|]. split; [reflexivity|]. split; [reflexivity|].
  apply (missing_text_rejected output_text exact_str (pydantic_int reject_undecided) sample_globals
           three_replies rq []).
  - reflexivity.
  - left. reflexivity.
  - right. exists [("num_mcqs", JInt 3)]. split; reflexivity.
Defined.



Lemma missing_key_refuses_to_start_witness :
  let environ : gmap string string := {[ "PATH" := "/usr/bin" ]} in
  let rqs := [post "/summarize" [("text", JString "Stack")]] in
  environ !! "GEMINI_API_KEY" = None
  /\ process output_text exact_str (pydantic_int reject_undecided) ∅ environ three_replies rqs
     = inl (ValueError "GEMINI_API_KEY is not set. Please add it to your .env file.").
Proof.
  intros environ rqs.
  assert (He : environ !! "GEMINI_API_KEY" = None) by reflexivity.
  split; [exact He|].
  exact (proj2 (missing_key_refuses_to_start output_text exact_str (pydantic_int reject_undecided)
                  ∅ environ three_replies rqs He (lookup_empty _))).
Defined.

Lemma summarize_text_response_witness :
  let request := {| sr_text := "Stack" |} in
  let crew := {| agents := [summarizer_agent sample_llm];
                 tasks := [summarize_task sample_llm "Stack"];
                 crew_verbose := true |} in
  three_replies [] crew = inr "Stack: push, pop"
  /\ exists response : gmap string string,
       run three_replies (summarize_text output_text sample_llm request) []
         = (inr response, [crew])
       /\ dom response = {[ "summary" ]}
       /\ response !! "summary" = Some "Stack: push, pop"
       /\ ("Stack: push, pop" <> "" -> response !! "summary" <> Some "").
Proof.
  intros request crew.
  assert (H : three_replies [] crew = inr "Stack: push, pop") by reflexivity.
  split; [exact H|].
  exact (summarize_text_response output_text sample_llm three_replies
           request [] _ H).
Defined.

(** C7 as stated fails: here the text is not empty, the one call returns
    normally with the empty text, and the handler returns
    [{"summary": ""}]. *)
Lemma summarize_text_empty_summary :
  let request := {| sr_text := "Stack" |} in
  let crew := {| agents := [summarizer_agent sample_llm];
                 tasks := [summarize_task sample_llm "Stack"];
                 crew_verbose := true |} in
  sr_text request <> ""
  /\ scripted [inr ""] [] crew = inr ""
  /\ exists response : gmap string string,
       run (scripted [inr ""]) (summarize_text output_text sample_llm request) []
         = (inr response, [crew])
       /\ response !! "summary" = Some "".
Proof.
  cbv zeta. split; [discriminate|]. split; [reflexivity|].
  exists {[ "summary" := "" ]}. split; reflexivity.
Qed.

Lemma requests_isolated_witness :
  let rqs := [text_only POST "/generate_study_material" "Stack";
              text_only POST "/summarize" "Queue"] in
  let schedule := [0; 1; 0; 1; 0; 0; 1; 0; 0]%nat in
  let w := interleave_shared rotating schedule
             (arrived_shared output_text exact_str (pydantic_int reject_undecided)
                sample_globals rqs) in
  rqs !! 1%nat = Some (text_only POST "/summarize" "Queue")
  /\ pool w !! 1%nat ≫= response_shared = Some (OK {[ "summary" := "0" ]})
  /\ response_of
       (replay (in_flight output_text exact_str (pydantic_int reject_undecided)
                  sample_globals (text_only POST "/summarize" "Queue"))
          (own 1 (calls_log w)))
     = Some (OK {[ "summary" := "0" ]}).
Proof.
  intros rqs schedule w.
  assert (H : rqs !! 1%nat = Some (text_only POST "/summarize" "Queue"))
    by reflexivity.
  assert (Hr : pool w !! 1%nat ≫= response_shared = Some (OK {[ "summary" := "0" ]}))
    by reflexivity.
  split; [exact H|]. split; [exact Hr|].
  exact (proj1 (requests_isolated output_text exact_str
                  (pydantic_int reject_undecided) sample_globals rotating
                  rqs schedule 1 _ H) sample_globals _ Hr).
Defined.

(** * Further properties of the handlers *)

Section HandlerProperties.

Context {CrewOutput : Type}.
Variable str : CrewOutput -> string.
Variable L : LLM.

(** X1.  Every run of [summarize_text] makes exactly one call, whatever the
    capability answers; the instruction of that call is the fixed template
    followed by the request text, unescaped and to the last character; and
    when the call raises, the same exception escapes the handler. *)
Theorem summarize_text_single_call
    (gen : capability CrewOutput) (request : SummarizeRequest) (hist : list Crew) :
  let crew := {| agents := [summarizer_agent L];
                 tasks := [summarize_task L (sr_text request)];
                 crew_verbose := true |} in
  (run gen (summarize_text str L request) hist).2 = hist ++ [crew]
  /\ instructions [crew]
     = [description (summarize_task L "") +:+ sr_text request]
  /\ (forall e : exception,
        gen hist crew = inl e ->
        (run gen (summarize_text str L request) hist).1 = inl e).
Proof.
  intros crew. rewrite run_summarize_text. cbv zeta. fold crew.
  split; [now destruct (gen hist crew)|].
  split; [reflexivity|].
  intros e He. now rewrite He.
Qed.

(** X2.  Every run of [generate_study_material] makes at least one and at
    most three calls and leaves the earlier calls in place; the first call
    is always the topics crew, whose instruction contains the request text;
    and a response is returned only after all three calls. *)
Theorem generate_study_material_call_bounds
    (gen : capability CrewOutput) (req : StudyMaterialRequest) (hist : list Crew) :
  exists calls : list Crew,
    (run gen (generate_study_material str L req) hist).2 = hist ++ calls
    /\ (1 <= length calls <= 3)%nat
    /\ head calls = Some (topics_crew L (text req))
    /\ occurs (text req) (description (topic_task L (text req))) = true
    /\ (forall response,
          (run gen (generate_study_material str L req) hist).1 = inr response ->
          length calls = 3%nat).
Proof.
  rewrite run_generate_study_material. cbv zeta.
  assert (Ho : occurs (text req) (description (topic_task L (text req))) = true)
    by find_part.
  destruct (gen hist _) as [e|r1].
  { eexists [_]. repeat split; cbn; try lia; try exact Ho. discriminate. }
  destruct (gen (hist ++ [_]) _) as [e|r2].
  { eexists [_; _]. repeat split; cbn; try lia; try exact Ho. discriminate. }
  destruct (gen (hist ++ [_; _]) _) as [e|r3].
  { eexists [_; _; _]. repeat split; cbn; try lia; exact Ho. }
  eexists [_; _; _]. repeat split; cbn; try lia; exact Ho.
Qed.

(** X3.  The requested count reaches the MCQ stage only: two requests with
    the same text run against the same capability make the same first two
    calls, whatever their counts; and the decimal literal of the count
    occurs in the expected-output text of the MCQ task as well. *)
Theorem count_reaches_mcq_stage_only
    (gen : capability CrewOutput) (req req' : StudyMaterialRequest)
    (hist : list Crew) :
  text req' = text req ->
  take (length hist + 2)
    (run gen (generate_study_material str L req') hist).2
  = take (length hist + 2)
      (run gen (generate_study_material str L req) hist).2
  /\ (forall notes_text : string,
        occurs (str_int (num_mcqs req))
          (expected_output (mcq_task L notes_text (num_mcqs req))) = true).
Proof.
  intros Ht. split.
  - rewrite !run_generate_study_material. cbv zeta. rewrite Ht.
    destruct (gen hist _) as [e|r1]; [reflexivity|].
    destruct (gen (hist ++ [_]) _) as [e|r2]; [reflexivity|].
    destruct (gen (hist ++ [_; _]) (mcq_crew L (str r2) (num_mcqs req')));
      destruct (gen (hist ++ [_; _]) (mcq_crew L (str r2) (num_mcqs req)));
      cbn [snd]; rewrite !take_app_add'; cbn; reflexivity.
  - intros notes_text. cbn [expected_output mcq_task].
    repeat first [ apply occurs_here | apply occurs_skip ].
Qed.

(** X4.  The instructions give their input back: the summary instruction
    determines the request text, the topics instruction determines the
    request text, and for given notes the MCQ instruction determines the
    requested count. *)
Theorem instructions_determine_inputs :
  (forall t1 t2 : string,
      description (summarize_task L t1) = description (summarize_task L t2) ->
      t1 = t2)
  /\ (forall c1 c2 : string,
        description (topic_task L c1) = description (topic_task L c2) ->
        c1 = c2)
  /\ (forall (notes_text : string) (n1 n2 : Z),
        description (mcq_task L notes_text n1)
        = description (mcq_task L notes_text n2) ->
        n1 = n2).
Proof.
  split; [|split].
  - intros t1 t2 H. cbn [description summarize_task] in H.
    do 6 apply string_app_inv_head in H. exact H.
  - intros c1 c2 H. cbn [description topic_task] in H.
    do 6 apply string_app_inv_head in H.
    now apply string_app_inv_tail in H.
  - intros notes_text n1 n2 H. cbn [description mcq_task] in H.
    do 9 apply string_app_inv_head in H.
    apply string_app_inv_tail in H.
    now apply (inj pretty) in H.
Qed.

(** X5.  The notes instruction does not tell its two inserted texts apart:
    it is the same for topics [a ++ heading ++ b] with content [c] as for
    topics [a] with content [b ++ heading ++ c], where [heading] is the text
    the template puts between the two; and these are different inputs. *)
Theorem notes_instruction_boundary (a b c : string) :
  notes_task L (a +:+ content_heading +:+ b) c
  = notes_task L a (b +:+ content_heading +:+ c)
  /\ a +:+ content_heading +:+ b <> a.
Proof.
  split.
  - unfold notes_task. f_equal.
    do 8 (apply (f_equal (String.append _))).
    unfold content_heading.
    now rewrite !string_app_assoc.
  - intros H. apply (f_equal String.length) in H.
    rewrite !length_string_app in H.
    change (String.length content_heading) with 20%nat in H. lia.
Qed.

End HandlerProperties.

(** ** The application, request by request *)

Section ServingProperties.

Context {CrewOutput : Type}.
Variable str : CrewOutput -> string.
Variable validate_str : json -> option string.
Variable validate_int : json -> option Z.

Lemma SummarizeRequest_validate_Some (b : option json) (r : SummarizeRequest) :
  b ≫= SummarizeRequest_validate validate_str = Some r ->
  exists ms v, b = Some (JObject ms) /\ member "text" ms = Some v
               /\ validate_str v = Some (sr_text r).
Proof.
  destruct b as [[| | | | | |ms]|]; try discriminate. cbn.
  destruct (member "text" ms) as [v|] eqn:Hm; [|discriminate].
  destruct (validate_str v) as [t|] eqn:Hv; [|discriminate].
  cbn. intros [= <-]. now exists ms, v.
Qed.

Lemma StudyMaterialRequest_validate_Some (b : option json) (r : StudyMaterialRequest) :
  b ≫= StudyMaterialRequest_validate validate_str validate_int = Some r ->
  exists ms v, b = Some (JObject ms) /\ member "text" ms = Some v
               /\ validate_str v = Some (text r).
Proof.
  destruct b as [[| | | | | |ms]|]; try discriminate. cbn.
  destruct (member "text" ms) as [v|] eqn:Hm; [|discriminate].
  destruct (validate_str v) as [t|] eqn:Hv; [|discriminate]. cbn.
  destruct (match member "num_mcqs" ms with
            | Some w => validate_int w
            | None => Some num_mcqs_default
            end) as [n|]; [|discriminate].
  cbn. intros [= <-]. now exists ms, v.
Qed.

Lemma single_agent_crews (L : LLM) (t s : string) (n : Z) :
  single_agent_crew L {| agents := [summarizer_agent L];
                         tasks := [summarize_task L t];
                         crew_verbose := true |}
  /\ single_agent_crew L (topics_crew L t)
  /\ single_agent_crew L (notes_crew L s t)
  /\ single_agent_crew L (mcq_crew L s n).
Proof. repeat split; eexists _, _; repeat split. Qed.

(** What one request adds to the calls. *)
Lemma serve_calls (g : Globals) (gen : capability CrewOutput)
    (rq : HttpRequest) (hist : list Crew) :
  exists calls : list Crew,
    (serve str validate_str validate_int g gen rq hist).2 = hist ++ calls
    /\ (length calls <= 3)%nat
    /\ Forall (single_agent_crew (gemini_llm g)) calls
    /\ (calls <> [] ->
        meth rq = POST
        /\ (path rq = "/summarize" \/ path rq = "/generate_study_material")
        /\ exists ms v t, body rq = Some (JObject ms)
             /\ member "text" ms = Some v /\ validate_str v = Some t).
Proof.
  assert (Hnone : exists calls : list Crew,
    hist = hist ++ calls /\ (length calls <= 3)%nat
    /\ Forall (single_agent_crew (gemini_llm g)) calls
    /\ (calls <> [] ->
        meth rq = POST
        /\ (path rq = "/summarize" \/ path rq = "/generate_study_material")
        /\ exists ms v t, body rq = Some (JObject ms)
             /\ member "text" ms = Some v /\ validate_str v = Some t)).
  { exists []. rewrite app_nil_r.
    split; [reflexivity|]. split; [cbn; lia|]. split; [constructor|].
    intros Hne. now destruct Hne. }
  unfold serve, app. destruct (meth rq) eqn:Hm.
  - destruct (String.eqb (path rq) "/"); [exact Hnone|].
    destruct (String.eqb (path rq) "/health"); exact Hnone.
  - destruct (String.eqb_spec (path rq) "/summarize") as [Hp|_].
    + unfold with_body.
      destruct (body rq ≫= SummarizeRequest_validate validate_str)
        as [r|] eqn:Hb; [|exact Hnone].
      destruct (SummarizeRequest_validate_Some _ _ Hb) as (ms & v & E1 & E2 & E3).
      rewrite run_summarize_text. cbv zeta.
      eexists [_]. split; [now destruct (gen hist _)|].
      split; [cbn; lia|]. split.
      * repeat constructor. apply (single_agent_crews _ _ "" 0).
      * intros _. split; [reflexivity|]. split; [now left|]. eauto 7.
    + destruct (String.eqb_spec (path rq) "/generate_study_material") as [Hp|_];
        [|exact Hnone].
      unfold with_body.
      destruct (body rq ≫= StudyMaterialRequest_validate validate_str validate_int)
        as [r|] eqn:Hb; [|exact Hnone].
      destruct (StudyMaterialRequest_validate_Some _ _ Hb) as (ms & v & E1 & E2 & E3).
      assert (Hroute : meth rq = POST
        /\ (path rq = "/summarize" \/ path rq = "/generate_study_material")
        /\ exists ms v t, body rq = Some (JObject ms)
             /\ member "text" ms = Some v /\ validate_str v = Some t).
      { split; [exact Hm|]. split; [now right|]. eauto 7. }
      rewrite run_generate_study_material. cbv zeta.
      destruct (gen hist _) as [e|r1].
      { eexists [_]. repeat split; cbn; try lia; try exact Hroute.
        repeat constructor. apply (single_agent_crews _ _ "" 0).
        all: apply Hroute. }
      destruct (gen (hist ++ [_]) _) as [e|r2].
      { eexists [_; _]. repeat split; cbn; try lia.
        repeat constructor; apply (single_agent_crews _ (text r) (str r1) 0).
        all: apply Hroute. }
      assert (Hall : Forall (single_agent_crew (gemini_llm g))
                [topics_crew (gemini_llm g) (text r);
                 notes_crew (gemini_llm g) (str r1) (text r);
                 mcq_crew (gemini_llm g) (str r2) (num_mcqs r)]).
      { repeat constructor;
          apply (single_agent_crews _ (text r) (str r1) (num_mcqs r))
          || apply (single_agent_crews _ (text r) (str r2) (num_mcqs r)). }
      destruct (gen (hist ++ [_; _]) _) as [e|r3].
      all: eexists [_; _; _]; repeat split; cbn; try lia; try exact Hall;
        apply Hroute.
Qed.

End ServingProperties.

Section ServingTheorems.

Context {CrewOutput : Type}.
Variable str : CrewOutput -> string.
Variable validate_str : json -> option string.
Variable validate_int : json -> option Z.

Lemma serve_all_calls (g : Globals) (gen : capability CrewOutput)
    (rqs : list HttpRequest) (hist : list Crew) :
  exists calls : list Crew,
    (serve_all str validate_str validate_int g gen rqs hist).2 = hist ++ calls
    /\ (length calls <= 3 * length rqs)%nat
    /\ Forall (single_agent_crew (gemini_llm g)) calls
    /\ length (serve_all str validate_str validate_int g gen rqs hist).1
       = length rqs.
Proof.
  revert hist. induction rqs as [|rq rqs IH]; intros hist.
  - exists []. cbn. rewrite app_nil_r.
    split; [reflexivity|]. split; [lia|]. split; [constructor|reflexivity].
  - cbn [serve_all].
    destruct (serve_calls str validate_str validate_int g gen rq hist)
      as (calls1 & E1 & B1 & W1 & _).
    destruct (serve str validate_str validate_int g gen rq hist) as [r h1].
    cbn [snd] in E1. subst h1.
    destruct (IH (hist ++ calls1)) as (calls2 & E2 & B2 & W2 & N2).
    destruct (serve_all str validate_str validate_int g gen rqs (hist ++ calls1))
      as [rs h2].
    cbn [fst snd] in *. subst h2.
    exists (calls1 ++ calls2). rewrite app_assoc.
    split; [reflexivity|]. split; [rewrite length_app; cbn [length]; lia|].
    split; [now apply Forall_app|]. cbn [length]. now rewrite N2.
Qed.

(** X6.  Serving requests one after the other answers each of them, keeps
    the earlier calls in place, and makes at most three calls per request. *)
Theorem serve_all_call_bound (g : Globals) (gen : capability CrewOutput)
    (rqs : list HttpRequest) (hist : list Crew) :
  exists calls : list Crew,
    (serve_all str validate_str validate_int g gen rqs hist).2 = hist ++ calls
    /\ (length calls <= 3 * length rqs)%nat
    /\ length (serve_all str validate_str validate_int g gen rqs hist).1
       = length rqs.
Proof.
  destruct (serve_all_calls g gen rqs hist) as (calls & E & B & _ & N).
  now exists calls.
Qed.

(** X7.  In a process that started, every call ever made submits a crew
    of one agent and one task given to that agent, with both verbose flags
    on, and the agent runs on the model "gemini/gemini-2.5-pro" at
    temperature 0.3 with the key that was read when the module was
    imported. *)
Theorem process_calls_use_startup_key
    (dotenv environ : gmap string string) (gen : capability CrewOutput)
    (rqs : list HttpRequest) (responses : list HttpResponse) (calls : list Crew) :
  process str validate_str validate_int dotenv environ gen rqs
    = inr (responses, calls) ->
  exists key : string,
    getenv (load_dotenv dotenv environ) "GEMINI_API_KEY" = Some key
    /\ Forall (single_agent_crew {| model := "gemini/gemini-2.5-pro";
                                    api_key := key;
                                    temperature := 3 # 10 |}) calls.
Proof.
  unfold process, startup.
  destruct (getenv (load_dotenv dotenv environ) "GEMINI_API_KEY")
    as [key|]; [|discriminate].
  intros [= H]. exists key. split; [reflexivity|].
  match type of H with serve_all _ _ _ ?g _ _ _ = _ =>
    destruct (serve_all_calls g gen rqs []) as (cs & E & _ & W & _) end.
  rewrite H in E. cbn in E. now subst cs.
Qed.

(** X8.  A request that makes the capability be called is a POST to
    [/summarize] or to [/generate_study_material] whose body is an object
    with a "text" member that validates as a string; no other request
    causes a call. *)
Theorem calls_only_from_generation_routes
    (g : Globals) (gen : capability CrewOutput)
    (rq : HttpRequest) (hist : list Crew) :
  (serve str validate_str validate_int g gen rq hist).2 <> hist ->
  meth rq = POST
  /\ (path rq = "/summarize" \/ path rq = "/generate_study_material")
  /\ exists ms v t, body rq = Some (JObject ms)
       /\ member "text" ms = Some v /\ validate_str v = Some t.
Proof.
  intros Hne.
  destruct (serve_calls str validate_str validate_int g gen rq hist)
    as (calls & E & _ & _ & Hroute).
  apply Hroute. intros ->. apply Hne. now rewrite E, app_nil_r.
Qed.

(** X9.  A GET request never calls the capability and is never answered by
    an escaped exception, whatever its path and body; on [/health] the
    answer is exactly [{"status": "ok"}]. *)
Theorem get_requests_never_call
    (g : Globals) (gen : capability CrewOutput)
    (rq : HttpRequest) (hist : list Crew) :
  meth rq = GET ->
  (serve str validate_str validate_int g gen rq hist).2 = hist
  /\ (forall e, (serve str validate_str validate_int g gen rq hist).1 <> Unhandled e)
  /\ (path rq = "/health" ->
      (serve str validate_str validate_int g gen rq hist).1
        = OK {[ "status" := "ok" ]}).
Proof.
  intros Hm. unfold serve, app. rewrite Hm.
  destruct (String.eqb_spec (path rq) "/") as [H1|H1].
  { repeat split; [discriminate|]. rewrite H1. discriminate. }
  destruct (String.eqb_spec (path rq) "/health") as [H2|H2].
  { repeat split. discriminate. }
  repeat split; [discriminate|]. intros H. now destruct H2.
Qed.

(** X11.  A POST to [/summarize] whose "text" member validates as [t], on
    which the one call returns [result], is answered by
    [{"summary": str(result)}]; the call made is the summary crew on [t]
    itself, whatever else the body holds. *)
Theorem serve_summarize_ok
    (g : Globals) (gen : capability CrewOutput) (rq : HttpRequest)
    (hist : list Crew) (ms : list (string * json)) (v : json) (t : string)
    (result : CrewOutput) :
  let crew := {| agents := [summarizer_agent (gemini_llm g)];
                 tasks := [summarize_task (gemini_llm g) t];
                 crew_verbose := true |} in
  meth rq = POST ->
  path rq = "/summarize" ->
  body rq = Some (JObject ms) ->
  member "text" ms = Some v ->
  validate_str v = Some t ->
  gen hist crew = inr result ->
  serve str validate_str validate_int g gen rq hist
    = (OK {[ "summary" := str result ]}, hist ++ [crew]).
Proof.
  intros crew Hm Hp Hb Ht Hv Hg. unfold serve, app, with_body.
  rewrite Hm, Hp, Hb. cbn. rewrite Ht, Hv. cbn.
  fold crew. now rewrite Hg.
Qed.

(** X12.  A POST to [/generate_study_material] whose "text" member
    validates as [t] and which has no "num_mcqs" member, on which the
    three calls return, is answered by the three texts, and the third call
    is the MCQ crew for the count 5. *)
Theorem serve_generate_default_count
    (g : Globals) (gen : capability CrewOutput) (rq : HttpRequest)
    (hist : list Crew) (ms : list (string * json)) (v : json) (t : string)
    (r1 r2 r3 : CrewOutput) :
  let c1 := topics_crew (gemini_llm g) t in
  let c2 := notes_crew (gemini_llm g) (str r1) t in
  let c3 := mcq_crew (gemini_llm g) (str r2) 5 in
  meth rq = POST ->
  path rq = "/generate_study_material" ->
  body rq = Some (JObject ms) ->
  member "text" ms = Some v ->
  validate_str v = Some t ->
  member "num_mcqs" ms = None ->
  gen hist c1 = inr r1 ->
  gen (hist ++ [c1]) c2 = inr r2 ->
  gen (hist ++ [c1; c2]) c3 = inr r3 ->
  serve str validate_str validate_int g gen rq hist
    = (OK {[ "topics" := str r1; "notes" := str r2; "mcqs" := str r3 ]},
       hist ++ [c1; c2; c3])
  /\ occurs "Create around 5 MCQs." (description (mcq_task (gemini_llm g) (str r2) 5))
     = true.
Proof.
  intros c1 c2 c3 Hm Hp Hb Ht Hv Hn H1 H2 H3. split.
  - assert (Hval : body rq ≫= StudyMaterialRequest_validate validate_str validate_int
                   = Some {| text := t; num_mcqs := 5 |}).
    { rewrite Hb. cbn. rewrite Ht, Hv. cbn. now rewrite Hn. }
    unfold serve, app, with_body. rewrite Hm, Hp.
    cbn [String.eqb Ascii.eqb Bool.eqb]. rewrite Hval.
    rewrite run_generate_study_material. cbv zeta. cbn [text num_mcqs].
    fold c1. rewrite H1. fold c2. rewrite H2. fold c3. now rewrite H3.
  - cbn [description mcq_task].
    do 8 apply occurs_skip. apply occurs_prefix. reflexivity.
Qed.

End ServingTheorems.

(** ** Interleaved requests come to an end *)

Section Progress.

Context {CrewOutput A : Type}.
Implicit Types (t : inflight CrewOutput A).
Implicit Types (st : list (inflight CrewOutput A) * list (event CrewOutput)).

Lemma over_within_0 t (m : nat) : over_within 0 t -> over_within m t.
Proof. intros H. inversion H; constructor. Qed.

Lemma over_within_not_pending t (m : nat) : pending t = None -> over_within m t.
Proof. destruct t as [e|[a|c k]]; [constructor|constructor|discriminate]. Qed.

Lemma step_other (gen : shared_capability CrewOutput) st (i j : nat) :
  j <> i -> (step gen j st).1 !! i = st.1 !! i.
Proof.
  intros Hji. unfold step. destruct (st.1 !! j ≫= pending); [|reflexivity].
  cbn. now apply list_lookup_alter_ne.
Qed.

(** Each step a request takes uses up one of the replies it still needs. *)
Lemma interleave_budget (gen : shared_capability CrewOutput)
    (schedule : list nat) st (i n : nat) t :
  st.1 !! i = Some t ->
  over_within n t ->
  exists t', (interleave gen schedule st).1 !! i = Some t'
             /\ over_within (n - count_occ Nat.eq_dec schedule i) t'.
Proof.
  revert st n t. induction schedule as [|j schedule IH]; intros st n t Hi Ht.
  - exists t. cbn. rewrite Nat.sub_0_r. now split.
  - unfold interleave. cbn [fold_left count_occ].
    fold (interleave gen schedule (step gen j st)).
    destruct (Nat.eq_dec j i) as [->|Hji].
    + destruct (pending t) as [c|] eqn:Hp.
      * destruct t as [e|[a|c' k]]; try discriminate.
        inversion Ht as [| |n' c0 k0 Hk]; subst.
        assert (Hs : (step gen i st).1 !! i
                     = Some (resume (inr (Kickoff c' k)) (gen st.2 i c'))).
        { unfold step. rewrite Hi. cbn.
          now rewrite list_lookup_alter_eq, Hi. }
        apply (IH _ n' _ Hs). cbn.
        destruct (gen st.2 i c'); [constructor|apply Hk].
      * assert (Hs : (step gen i st).1 !! i = Some t).
        { unfold step. rewrite Hi. cbn. now rewrite Hp. }
        destruct (IH _ 0%nat _ Hs (over_within_not_pending _ _ Hp))
          as (t' & E & W).
        exists t'. split; [exact E|]. now apply over_within_0.
    + apply (IH _ n t); [|exact Ht]. now rewrite step_other.
Qed.

End Progress.

Section ProgressOfRequests.

Context {CrewOutput : Type}.
Variable str : CrewOutput -> string.
Variable validate_str : json -> option string.
Variable validate_int : json -> option Z.

(** No request needs more than three replies. *)
Lemma in_flight_over_within_3 (g : Globals) (rq : HttpRequest) :
  over_within 3 (inr (in_flight str validate_str validate_int g rq)).
Proof.
  unfold in_flight, app, with_body.
  destruct (meth rq).
  - destruct (String.eqb (path rq) "/"); [constructor|].
    destruct (String.eqb (path rq) "/health"); constructor.
  - destruct (String.eqb (path rq) "/summarize").
    + destruct (body rq ≫= _); [|constructor].
      constructor. intros x. constructor.
    + destruct (String.eqb (path rq) "/generate_study_material"); [|constructor].
      destruct (body rq ≫= _); [|constructor].
      constructor. intros x1. constructor. intros x2.
      constructor. intros x3. constructor.
Qed.

(** X13.  Whatever the other requests, the schedule and the capability
    are, a request that has been scheduled three times is over: it has its
    response, be it the handler's return value, a rejection or the escaped
    exception. *)
Theorem request_over_after_three_steps
    (g : Globals) (gen : shared_capability CrewOutput)
    (rqs : list HttpRequest) (schedule : list nat)
    (i : nat) (rq : HttpRequest) :
  rqs !! i = Some rq ->
  (3 <= count_occ Nat.eq_dec schedule i)%nat ->
  exists response : HttpResponse,
    (interleave gen schedule
       (arrived str validate_str validate_int g rqs)).1 !! i ≫= response_of
    = Some response.
Proof.
  intros Hi Hc.
  destruct (interleave_budget gen schedule
              (arrived str validate_str validate_int g rqs) i 3
              (inr (in_flight str validate_str validate_int g rq)))
    as (t' & E & W).
  - unfold arrived. cbn. now rewrite list_lookup_fmap, Hi.
  - apply in_flight_over_within_3.
  - rewrite E. cbn.
    replace (3 - count_occ Nat.eq_dec schedule i)%nat with 0%nat in W by lia.
    inversion W; cbn; eauto.
Qed.

End ProgressOfRequests.

(** ** The further properties at concrete inputs *)

Lemma count_reaches_mcq_stage_only_witness :
  let req' := {| text := "Stack"; num_mcqs := 10 |} in
  text req' = text stack_request
  /\ take 2 (run three_replies
               (generate_study_material output_text sample_llm req') []).2
     = take 2 (run three_replies
                 (generate_study_material output_text sample_llm stack_request) []).2.
Proof.
  intros req'.
  assert (H : text req' = text stack_request) by reflexivity.
  split; [exact H|].
  exact (proj1 (count_reaches_mcq_stage_only output_text sample_llm
                  three_replies stack_request req' [] H)).
Defined.

Lemma process_calls_use_startup_key_witness :
  let environ : gmap string string := {[ "GEMINI_API_KEY" := "abc" ]} in
  let rqs := [text_only POST "/summarize" "Stack"] in
  let llm_abc := {| model := "gemini/gemini-2.5-pro"; api_key := "abc";
                    temperature := 3 # 10 |} in
  let crew := {| agents := [summarizer_agent llm_abc];
                 tasks := [summarize_task llm_abc "Stack"];
                 crew_verbose := true |} in
  process output_text exact_str (pydantic_int reject_undecided) ∅ environ three_replies rqs
    = inr ([OK {[ "summary" := "Stack: push, pop" ]}], [crew])
  /\ exists key : string,
       getenv (load_dotenv ∅ environ) "GEMINI_API_KEY" = Some key
       /\ Forall (single_agent_crew {| model := "gemini/gemini-2.5-pro";
                                       api_key := key;
                                       temperature := 3 # 10 |}) [crew].
Proof.
  intros environ rqs llm_abc crew.
  assert (H : process output_text exact_str (pydantic_int reject_undecided) ∅ environ three_replies rqs
              = inr ([OK {[ "summary" := "Stack: push, pop" ]}], [crew]))
    by reflexivity.
  split; [exact H|].
  exact (process_calls_use_startup_key output_text exact_str (pydantic_int reject_undecided)
           ∅ environ three_replies rqs _ _ H).
Defined.

Lemma calls_only_from_generation_routes_witness :
  let rq := text_only POST "/summarize" "Stack" in
  (serve output_text exact_str (pydantic_int reject_undecided) sample_globals three_replies rq []).2 <> []
  /\ meth rq = POST
  /\ (path rq = "/summarize" \/ path rq = "/generate_study_material")
  /\ exists ms v t, body rq = Some (JObject ms)
       /\ member "text" ms = Some v /\ exact_str v = Some t.
Proof.
  intros rq.
  assert (H : (serve output_text exact_str (pydantic_int reject_undecided) sample_globals
                 three_replies rq []).2 <> [])
    by (intros H; vm_compute in H; discriminate H).
  split; [exact H|].
  exact (calls_only_from_generation_routes output_text exact_str (pydantic_int reject_undecided)
           sample_globals three_replies rq [] H).
Defined.

Lemma get_requests_never_call_witness :
  let rq := {| meth := GET; path := "/health"; body := None |} in
  meth rq = GET
  /\ (serve output_text exact_str (pydantic_int reject_undecided) sample_globals three_replies rq []).2 = []
  /\ (serve output_text exact_str (pydantic_int reject_undecided) sample_globals three_replies rq []).1
     = OK {[ "status" := "ok" ]}.
Proof.
  intros rq.
  destruct (get_requests_never_call output_text exact_str (pydantic_int reject_undecided)
              sample_globals three_replies rq [] eq_refl) as (H1 & _ & H3).
  split; [reflexivity|]. split; [exact H1|]. exact (H3 eq_refl).
Defined.

Lemma serve_summarize_ok_witness :
  let ms := [("text", JString "Stack"); ("lang", JString "en")] in
  let rq := post "/summarize" ms in
  let crew := {| agents := [summarizer_agent sample_llm];
                 tasks := [summarize_task sample_llm "Stack"];
                 crew_verbose := true |} in
  member "text" ms = Some (JString "Stack")
  /\ three_replies [] crew = inr "Stack: push, pop"
  /\ serve output_text exact_str (pydantic_int reject_undecided) sample_globals three_replies rq []
     = (OK {[ "summary" := "Stack: push, pop" ]}, [crew]).
Proof.
  intros ms rq crew. split; [reflexivity|]. split; [reflexivity|].
  apply (serve_summarize_ok output_text exact_str (pydantic_int reject_undecided) sample_globals
           three_replies rq [] ms (JString "Stack") "Stack" "Stack: push, pop");
    reflexivity.
Defined.

Lemma serve_generate_default_count_witness :
  let rq := text_only POST "/generate_study_material" "Stack" in
  let c1 := topics_crew sample_llm "Stack" in
  let c2 := notes_crew sample_llm "Stack: push, pop" "Stack" in
  let c3 := mcq_crew sample_llm "Stack is a LIFO list" 5 in
  member "num_mcqs" [("text", JString "Stack")] = None
  /\ three_replies [c1; c2] c3 = inr "Q1. ..."
  /\ serve output_text exact_str (pydantic_int reject_undecided) sample_globals three_replies rq []
     = (OK {[ "topics" := "Stack: push, pop"; "notes" := "Stack is a LIFO list";
              "mcqs" := "Q1. ..." ]}, [c1; c2; c3]).
Proof.
  intros rq c1 c2 c3. split; [reflexivity|]. split; [reflexivity|].
  apply (serve_generate_default_count output_text exact_str (pydantic_int reject_undecided)
           sample_globals three_replies rq [] [("text", JString "Stack")]
           (JString "Stack") "Stack"
           "Stack: push, pop" "Stack is a LIFO list" "Q1. ...");
    reflexivity.
Defined.

Lemma request_over_after_three_steps_witness :
  let rqs := [text_only POST "/generate_study_material" "Stack";
              text_only POST "/summarize" "Queue"] in
  let schedule := [1; 0; 0; 1; 0]%nat in
  rqs !! 0%nat = Some (text_only POST "/generate_study_material" "Stack")
  /\ (3 <= count_occ Nat.eq_dec schedule 0)%nat
  /\ exists response : HttpResponse,
       (interleave counting schedule
          (arrived output_text exact_str (pydantic_int reject_undecided) sample_globals rqs)).1
         !! 0%nat ≫= response_of
       = Some response.
Proof.
  intros rqs schedule.
  assert (H1 : rqs !! 0%nat
               = Some (text_only POST "/generate_study_material" "Stack"))
    by reflexivity.
  assert (H2 : (3 <= count_occ Nat.eq_dec schedule 0)%nat) by (cbn; lia).
  split; [exact H1|]. split; [exact H2|].
  exact (request_over_after_three_steps output_text exact_str (pydantic_int reject_undecided)
           sample_globals counting rqs schedule 0 _ H1 H2).
Defined.
